(** * Bookings card of the tenant portal: time-zone labelling, record
      normalisation and the booking view pipeline

    Shallow embedding of [portal/src/components/BookingsCard.jsx].

    - [JS]        the fragment of JavaScript values and coercions the
                  component relies on (truthiness, [||], [??], [String(v)]
                  and the values it throws on, property reads, [padStart],
                  [toLowerCase] and [trim] on ASCII text);
    - [Calendar]  proleptic Gregorian day arithmetic and the ECMAScript
                  date-time string format;
    - [Host]      what the browser supplies: the local time zone, the
                  fallback date parser and [Intl.DateTimeFormat];
    - [Card]      the component itself: [formatDateAny], [normalizeRow],
                  [localWallToZonedIso], [loadBookings], [handleAdd],
                  [completeBooking], [deleteBooking], the check-box handlers
                  and the [filtered] / [sorted] pipeline. *)

From Stdlib Require Import ZArith String Ascii List Bool Lia.
From Stdlib Require Import DecimalString DecimalNat DecimalZ.
From Stdlib Require Import Sorted Permutation.
From stdpp Require Import base option list gmap strings.

Set Warnings "-register-all".

Local Open Scope string_scope.
Local Open Scope Z_scope.

(* ===================================================================== *)
(** ** JavaScript values *)
(* ===================================================================== *)

Module JS.

(** A JavaScript number as the component meets it: [NaN] or an integer.
    Every number the component computes with is a count of milliseconds or
    minutes, an array index or a calendar field; fractional values and the
    exponent notation [String] uses from 1e21 on are outside the model. *)
Inductive number : Type :=
| NaN
| Num (z : Z).

(** What [JSON.parse] can return, plus [undefined] for an absent property.
    An object is its own properties in enumeration order. A string is a
    sequence of one-byte characters, which is what [length] counts. *)
Inductive value : Type :=
| Undefined
| Null
| Boolean (b : bool)
| Number (n : number)
| Str (s : string)
| Arr (items : list value)
| Obj (props : list (string * value)).

Definition isNaN (n : number) : bool :=
  match n with NaN => true | Num _ => false end.

(** [ToBoolean] *)
Definition truthy (v : value) : bool :=
  match v with
  | Undefined | Null => false
  | Boolean b => b
  | Number NaN => false
  | Number (Num z) => negb (z =? 0)
  | Str s => negb (String.eqb s "")
  | Arr _ | Obj _ => true
  end.

Definition nullish (v : value) : bool :=
  match v with Undefined | Null => true | _ => false end.

(** [a || b] and [a ?? b]; both operands of every use in the component are
    effect free, so evaluating [b] eagerly changes nothing. *)
Definition or (a b : value) : value := if truthy a then a else b.
Definition coalesce (a b : value) : value := if nullish a then b else a.

(** [a || b || ... || z] and [a ?? b ?? ... ?? z] *)
Definition orChain (vs : list value) (last : value) : value :=
  List.fold_right or last vs.
Definition coalesceChain (vs : list value) (last : value) : value :=
  List.fold_right coalesce last vs.

Definition numberToString (n : number) : string :=
  match n with
  | NaN => "NaN"
  | Num z => NilEmpty.string_of_int (Z.to_int z)
  end.

Fixpoint join (sep : string) (parts : list string) : string :=
  match parts with
  | [] => ""
  | [p] => p
  | p :: rest => p ++ sep ++ join sep rest
  end.

(** [String(v)], which is also what a template literal and [join] apply,
    for a value that has a string: see [stringable] below for the values
    on which the conversion throws instead. *)
Fixpoint toString (v : value) : string :=
  match v with
  | Undefined => "undefined"
  | Null => "null"
  | Boolean true => "true"
  | Boolean false => "false"
  | Number n => numberToString n
  | Str s => s
  | Arr items =>
      join "," (List.map (fun x => if nullish x then "" else toString x) items)
  | Obj _ => "[object Object]"
  end.

Fixpoint assoc (k : string) (props : list (string * value)) : value :=
  match props with
  | [] => Undefined
  | (k', v) :: rest => if String.eqb k k' then v else assoc k rest
  end.

(** [k] is an own property *)
Fixpoint hasKey (k : string) (props : list (string * value)) : bool :=
  match props with
  | [] => false
  | (k', _) :: rest => String.eqb k k' || hasKey k rest
  end.

(** [String(v)] returns. The conversion of an object calls its [toString]
    and then its [valueOf] and wants a primitive from one of them. An own
    [toString] property hides [Object.prototype.toString], and no value of
    [JSON.parse] can be called, so the method is skipped; [valueOf], own or
    inherited, never yields a primitive; the conversion ends in a
    [TypeError]. Without the own property the object prints as
    [[object Object]]. An array prints its elements, [null] and [undefined]
    as nothing. [new Date(v)] asks for [valueOf] first and fails on the same
    values. *)
Fixpoint stringable (v : value) : bool :=
  match v with
  | Arr items => List.forallb (fun x => nullish x || stringable x) items
  | Obj props => negb (hasKey "toString" props)
  | _ => true
  end.

(** [v.k] for the property names the component reads ([length] and the
    record fields). [None] is the [TypeError] of reading a property of
    [null] or [undefined]. *)
Definition get (v : value) (k : string) : option value :=
  match v with
  | Undefined | Null => None
  | Obj props => Some (assoc k props)
  | Arr items =>
      Some (if String.eqb k "length"
            then Number (Num (Z.of_nat (List.length items))) else Undefined)
  | Str s =>
      Some (if String.eqb k "length"
            then Number (Num (Z.of_nat (String.length s))) else Undefined)
  | Boolean _ | Number _ => Some Undefined
  end.

(** [Boolean(v)] as a JavaScript value is [truthy]; [Array.isArray] *)
Definition isArray (v : value) : bool :=
  match v with Arr _ => true | _ => false end.

(** *** Numbers *)

Definition gt0 (n : number) : bool :=
  match n with NaN => false | Num z => 0 <? z end.

Definition abs (n : number) : number :=
  match n with NaN => NaN | Num z => Num (Z.abs z) end.

(** [Math.floor(n / k)] for a positive integer [k] *)
Definition floorDiv (n : number) (k : Z) : number :=
  match n with NaN => NaN | Num z => Num (z / k) end.

(** [n % k]: the remainder has the sign of the dividend *)
Definition rem (n : number) (k : Z) : number :=
  match n with NaN => NaN | Num z => Num (Z.rem z k) end.

Definition add (a b : number) : number :=
  match a, b with Num x, Num y => Num (x + y) | _, _ => NaN end.

Definition sub (a b : number) : number :=
  match a, b with Num x, Num y => Num (x - y) | _, _ => NaN end.

(** [a >= b] *)
Definition ge (a b : number) : bool :=
  match a, b with Num x, Num y => y <=? x | _, _ => false end.

(** *** Strings *)

(** The first [n] characters of [fill] repeated for ever; [cur] is what is
    left of the copy being emitted. *)
Fixpoint filler (n : nat) (cur fill : string) : string :=
  match n with
  | O => ""
  | S n' =>
      match cur with
      | String c rest => String c (filler n' rest fill)
      | EmptyString =>
          match fill with
          | String c rest => String c (filler n' rest fill)
          | EmptyString => ""
          end
      end
  end.

(** [s.padStart(target, fill)] *)
Definition padStart (s : string) (target : nat) (fill : string) : string :=
  if (target <=? String.length s)%nat then s
  else filler (target - String.length s) fill fill ++ s.

(** [s.toLowerCase()] on the ASCII letters: the method itself for a string
    of ASCII characters ([asciiOnly] below); a letter outside ASCII is left
    as it is here and folded by the method. *)
Definition lowerAscii (c : ascii) : ascii :=
  let n := nat_of_ascii c in
  if ((65 <=? n) && (n <=? 90))%nat then ascii_of_nat (n + 32) else c.

Fixpoint toLowerCase (s : string) : string :=
  match s with
  | EmptyString => EmptyString
  | String c rest => String (lowerAscii c) (toLowerCase rest)
  end.

Definition isSpace (c : ascii) : bool :=
  let n := nat_of_ascii c in
  ((n =? 32) || ((9 <=? n) && (n <=? 13)))%nat.

Fixpoint trimStart (s : string) : string :=
  match s with
  | String c rest => if isSpace c then trimStart rest else s
  | EmptyString => EmptyString
  end.

Fixpoint revString (s acc : string) : string :=
  match s with
  | EmptyString => acc
  | String c rest => revString rest (String c acc)
  end.

(** Nothing but white space *)
Fixpoint isBlank (s : string) : bool :=
  match s with
  | EmptyString => true
  | String c rest => isSpace c && isBlank rest
  end.

(** [s.trim()] on the ASCII white space: the method itself for a string of
    ASCII characters; the white space outside ASCII (the no-break space, the
    byte order mark and the like) is stripped by the method and kept here. *)
Definition trim (s : string) : string :=
  revString (trimStart (revString (trimStart s) "")) "".

Fixpoint isPrefix (p s : string) : bool :=
  match p, s with
  | EmptyString, _ => true
  | String a p', String b s' => Ascii.eqb a b && isPrefix p' s'
  | String _ _, EmptyString => false
  end.

(** [s.includes(q)] *)
Fixpoint includes (s q : string) : bool :=
  isPrefix q s ||
  match s with
  | EmptyString => false
  | String _ rest => includes rest q
  end.

(** Every character is an ASCII one *)
Fixpoint asciiOnly (s : string) : bool :=
  match s with
  | EmptyString => true
  | String c rest => (nat_of_ascii c <? 128)%nat && asciiOnly rest
  end.

End JS.

(* ===================================================================== *)
(** ** Calendar arithmetic and the date-time string format *)
(* ===================================================================== *)

Module Calendar.

Definition msPerMinute : Z := 60000.
Definition msPerHour : Z := 3600000.
Definition msPerDay : Z := 86400000.

Definition isLeap (y : Z) : bool :=
  ((y mod 4 =? 0) && negb (y mod 100 =? 0)) || (y mod 400 =? 0).

Definition daysInMonth (y m : Z) : Z :=
  if m =? 2 then (if isLeap y then 29 else 28)
  else if (m =? 4) || (m =? 6) || (m =? 9) || (m =? 11) then 30
  else 31.

(** Day number of the civil date [y]-[m]-[d], day 0 being 1970-01-01
    ([MakeDay]). Years are counted from March in 400-year eras. *)
Definition daysFromCivil (y m d : Z) : Z :=
  let y' := if m <=? 2 then y - 1 else y in
  let era := y' / 400 in
  let yoe := y' - era * 400 in
  let mp := (m + 9) mod 12 in
  let doy := (153 * mp + 2) / 5 + d - 1 in
  let doe := yoe * 365 + yoe / 4 - yoe / 100 + doy in
  era * 146097 + doe - 719468.

(** The inverse: year, month and day of a day number
    ([YearFromTime], [MonthFromTime] + 1, [DateFromTime]) *)
Definition civilFromDays (day : Z) : Z * Z * Z :=
  let z := day + 719468 in
  let era := z / 146097 in
  let doe := z - era * 146097 in
  let yoe := (doe - doe / 1460 + doe / 36524 - doe / 146096) / 365 in
  let doy := doe - (365 * yoe + yoe / 4 - yoe / 100) in
  let mp := (5 * doy + 2) / 153 in
  let d := doy - (153 * mp + 2) / 5 + 1 in
  let m := if mp <? 10 then mp + 3 else mp - 9 in
  let y := yoe + era * 400 in
  (if m <=? 2 then y + 1 else y, m, d).

(** 0 is Sunday *)
Definition weekDay (day : Z) : Z := (day + 4) mod 7.

(** *** Reading digits *)

Definition isDigit (c : ascii) : bool :=
  let n := nat_of_ascii c in ((48 <=? n) && (n <=? 57))%nat.

Fixpoint digitsFrom (s : string) (acc : Z) : option Z :=
  match s with
  | EmptyString => Some acc
  | String c rest =>
      if isDigit c
      then digitsFrom rest (10 * acc + (Z.of_nat (nat_of_ascii c) - 48))
      else None
  end.

(** The [len] characters of [s] from [start] on, read as a decimal number *)
Definition field (s : string) (start len : nat) : option Z :=
  let f := String.substring start len s in
  if ((String.length f =? len) && (0 <? len))%nat then digitsFrom f 0 else None.

Definition charIs (s : string) (i : nat) (c : ascii) : bool :=
  match String.get i s with
  | Some c' => Ascii.eqb c c'
  | None => false
  end.

Definition dropChars (n : nat) (s : string) : string :=
  String.substring n (String.length s - n) s.

(** A [+HH:MM] or [-HH:MM] suffix read as minutes east of UTC *)
Definition offsetOf (s : string) : option Z :=
  if negb (String.length s =? 6)%nat then None
  else if negb (charIs s 3 ":") then None
  else
    match field s 1 2, field s 4 2 with
    | Some hh, Some mm =>
        if (hh <=? 23) && (mm <=? 59) then
          if charIs s 0 "+" then Some (hh * 60 + mm)
          else if charIs s 0 "-" then Some (- (hh * 60 + mm))
          else None
        else None
    | _, _ => None
    end.

Definition isOffsetSuffix (s : string) : bool :=
  match offsetOf s with Some _ => true | None => false end.

(** The date part [YYYY-MM-DD] at the head of [s], as a day number *)
Definition dateOf (s : string) : option Z :=
  match field s 0 4, field s 5 2, field s 8 2 with
  | Some y, Some m, Some d =>
      if charIs s 4 "-" && charIs s 7 "-"
         && (1 <=? m) && (m <=? 12) && (1 <=? d) && (d <=? daysInMonth y m)
      then Some (daysFromCivil y m d)
      else None
  | _, _, _ => None
  end.

(** [HH:mm], [HH:mm:ss] or [HH:mm:ss.sss] at the head of [r]: the
    milliseconds into the day and what follows the time. *)
Definition timeOf (r : string) : option (Z * string) :=
  match field r 0 2, field r 3 2 with
  | Some hh, Some mm =>
      if negb (charIs r 2 ":") then None
      else
        let r1 := dropChars 5 r in
        let '(ss, r2) :=
          if charIs r1 0 ":" then (field r1 1 2, dropChars 3 r1)
          else (Some 0, r1) in
        let '(ms, r3) :=
          if charIs r1 0 ":" && charIs r2 0 "." then (field r2 1 3, dropChars 4 r2)
          else (Some 0, r2) in
        match ss, ms with
        | Some ss, Some ms =>
            if ((hh <=? 23) && (mm <=? 59) && (ss <=? 59))
               || ((hh =? 24) && (mm =? 0) && (ss =? 0) && (ms =? 0))
            then Some (hh * msPerHour + mm * msPerMinute + ss * 1000 + ms, r3)
            else None
        | _, _ => None
        end
  | _, _ => None
  end.

(** A string in the date-time string format denotes a UTC instant, or a
    local time when it has a time but no offset. The forms read here are
    [YYYY-MM-DD] alone or followed by [T] and a time, with legal field
    values; any other string is left to the parser of the host. *)
Inductive iso : Type :=
| IsoUtc (t : Z)
| IsoLocal (t : Z)
| NotIso.

Definition parseIso (s : string) : iso :=
  match dateOf s with
  | None => NotIso
  | Some day =>
      if (String.length s =? 10)%nat then IsoUtc (day * msPerDay)
      else if negb (charIs s 10 "T") then NotIso
      else
        match timeOf (dropChars 11 s) with
        | None => NotIso
        | Some (ms, zone) =>
            let t := day * msPerDay + ms in
            if String.eqb zone "" then IsoLocal t
            else if String.eqb zone "Z" then IsoUtc t
            else
              match offsetOf zone with
              | Some east => IsoUtc (t - east * msPerMinute)
              | None => NotIso
              end
        end
  end.

End Calendar.

(* ===================================================================== *)
(** ** The host: time zone, fallback parser, Intl *)
(* ===================================================================== *)

Module Host.

(** What the browser decides for the component.
    - [tzOffset t]: [getTimezoneOffset()] of the instant [t] (milliseconds
      since the epoch): minutes the local zone is behind UTC at that instant;
    - [localToUtc w]: the instant a local wall-clock reading [w] (as
      milliseconds) is taken for, which fixes a reading that is repeated or
      skipped at a transition;
    - [legacyParse s]: [Date.parse] on a string outside the date-time string
      format, implementation-defined; [None] is [NaN];
    - [formatToParts t]: the parts [Intl.DateTimeFormat("en-US", {month,
      day, hour, minute numeric, hour12, timeZone: "America/New_York"})]
      gives for [t], as (type, value) pairs; [None] when Intl throws. *)
Record t : Type := {
  tzOffset : Z -> Z;
  localToUtc : Z -> Z;
  legacyParse : string -> option Z;
  formatToParts : Z -> option (list (string * string));
}.

End Host.

Module Date.
Import JS Calendar.

Definition maxTime : Z := 8640000000000000.

Definition TimeClip (t : Z) : number :=
  if Z.abs t <=? maxTime then Num t else NaN.

(** [Date.parse(s)] *)
Definition parse (h : Host.t) (s : string) : number :=
  match parseIso s with
  | IsoUtc t => TimeClip t
  | IsoLocal w => TimeClip (Host.localToUtc h w)
  | NotIso =>
      match Host.legacyParse h s with
      | Some t => TimeClip t
      | None => NaN
      end
  end.

(** The time value of [new Date(v)]: a string is parsed, an object goes
    through its string, anything else through [ToNumber]. For an object or
    an array that is not [stringable] the constructor throws, and the value
    given here stands for nothing. *)
Definition make (h : Host.t) (v : value) : number :=
  match v with
  | Str s => parse h s
  | Arr _ | Obj _ => parse h (toString v)
  | Undefined => NaN
  | Null => Num 0
  | Boolean b => Num (if b then 1 else 0)
  | Number NaN => NaN
  | Number (Num z) => TimeClip z
  end.

Definition getTimezoneOffset (h : Host.t) (d : number) : number :=
  match d with
  | NaN => NaN
  | Num t => Num (Host.tzOffset h t)
  end.

(** [LocalTime(t)] *)
Definition localTime (h : Host.t) (t : Z) : Z :=
  t - Host.tzOffset h t * msPerMinute.

(** The local calendar fields of a date; [field] picks one of them from
    (year, month, day) and the milliseconds into the local day. *)
Definition localField (h : Host.t) (field : Z * Z * Z -> Z -> Z) (d : number)
  : number :=
  match d with
  | NaN => NaN
  | Num t =>
      let w := localTime h t in
      Num (field (civilFromDays (w / msPerDay)) (w mod msPerDay))
  end.

Definition getFullYear h := localField h (fun '(y, _, _) _ => y).
(** months count from 0 *)
Definition getMonth h := localField h (fun '(_, m, _) _ => m - 1).
Definition getDate h := localField h (fun '(_, _, d) _ => d).
Definition getHours h := localField h (fun _ ms => ms / msPerHour).
Definition getMinutes h := localField h (fun _ ms => (ms / msPerMinute) mod 60).
Definition getSeconds h := localField h (fun _ ms => (ms / 1000) mod 60).

End Date.

(* ===================================================================== *)
(** ** A sample host: United States Eastern time *)
(* ===================================================================== *)

Module Eastern.
Import Calendar.

(** The first Sunday on or after the first of month [m] of year [y] *)
Definition firstSunday (y m : Z) : Z :=
  let d := daysFromCivil y m 1 in d + (7 - weekDay d) mod 7.

(** Daylight time runs from the second Sunday of March, 2:00 standard
    time, to the first Sunday of November, 2:00 daylight time. *)
Definition dstStart (y : Z) : Z := (firstSunday y 3 + 7) * msPerDay + 7 * msPerHour.
Definition dstEnd (y : Z) : Z := firstSunday y 11 * msPerDay + 6 * msPerHour.

Definition tzOffset (t : Z) : Z :=
  let '(y, _, _) := civilFromDays (t / msPerDay) in
  if (dstStart y <=? t) && (t <? dstEnd y) then 240 else 300.

(** A reading that daylight time accounts for is taken as daylight time,
    so of the two instants of a repeated reading the earlier one is chosen;
    any other reading, a skipped one included, is taken as standard time:
    either way the offset before the transition. *)
Definition localToUtc (w : Z) : Z :=
  let t := w + 240 * msPerMinute in
  if tzOffset t =? 240 then t else w + 300 * msPerMinute.

Definition two (n : Z) : string := JS.padStart (JS.numberToString (JS.Num n)) 2 "0".

Definition formatToParts (t : Z) : option (list (string * string)) :=
  let w := t - tzOffset t * msPerMinute in
  let '(_, m, d) := civilFromDays (w / msPerDay) in
  let ms := w mod msPerDay in
  let h24 := ms / msPerHour in
  let h12 := if h24 mod 12 =? 0 then 12 else h24 mod 12 in
  Some [ ("month", JS.numberToString (JS.Num m)); ("literal", "/");
         ("day", JS.numberToString (JS.Num d)); ("literal", ", ");
         ("hour", JS.numberToString (JS.Num h12)); ("literal", ":");
         ("minute", two ((ms / msPerMinute) mod 60)); ("literal", " ");
         ("dayPeriod", if h24 <? 12 then "AM" else "PM") ].

(** A browser in New York whose fallback parser recognises nothing *)
Definition host : Host.t := {|
  Host.tzOffset := tzOffset;
  Host.localToUtc := localToUtc;
  Host.legacyParse := fun _ => None;
  Host.formatToParts := formatToParts;
|}.

End Eastern.

(* ===================================================================== *)
(** ** Handlers: state, exceptions and a trace of effects *)
(* ===================================================================== *)

Module Eff.

(** What a [catch] can receive. [Error] is [new Error(message)] thrown by
    the component; [HostError] is a rejection raised by the host ([fetch],
    [res.json()]) with the host's own text; [TypeError] is raised by the
    engine on a bad property read or call, its message is never read. *)
Inductive error : Type :=
| Error (message : string)
| HostError (name message : string)
| TypeError.

Inductive outcome (A : Type) : Type :=
| Done (a : A)
| Thrown (e : error).
Arguments Done {A} a.
Arguments Thrown {A} e.

(** A computation over a state [S] that leaves a trace of events [E] and
    either returns or throws. *)
Definition M (S E A : Type) : Type := S -> outcome A * S * list E.

Section Ops.
Context {S E : Type}.

Definition ret {A} (a : A) : M S E A := fun s => (Done a, s, []).

Definition bind {A B} (c : M S E A) (k : A -> M S E B) : M S E B :=
  fun s =>
    match c s with
    | (Done a, s1, w1) => let '(r, s2, w2) := k a s1 in (r, s2, (w1 ++ w2)%list)
    | (Thrown e, s1, w1) => (Thrown e, s1, w1)
    end.

Definition throw {A} (e : error) : M S E A := fun s => (Thrown e, s, []).
Definition emit (ev : E) : M S E unit := fun s => (Done tt, s, [ev]).
Definition gets {A} (f : S -> A) : M S E A := fun s => (Done (f s), s, []).
Definition modify (f : S -> S) : M S E unit := fun s => (Done tt, f s, []).

(** [try { body } catch (e) { handler e }] *)
Definition tryCatch {A} (body : M S E A) (handler : error -> M S E A)
  : M S E A :=
  fun s =>
    match body s with
    | (Done a, s1, w1) => (Done a, s1, w1)
    | (Thrown e, s1, w1) =>
        let '(r, s2, w2) := handler e s1 in (r, s2, (w1 ++ w2)%list)
    end.

(** [try { body } finally { fin }] *)
Definition finally {A} (body : M S E A) (fin : M S E unit) : M S E A :=
  fun s =>
    let '(r, s1, w1) := body s in
    match fin s1 with
    | (Done _, s2, w2) => (r, s2, (w1 ++ w2)%list)
    | (Thrown e, s2, w2) => (Thrown e, s2, (w1 ++ w2)%list)
    end.

(** Lift a value that may be a [TypeError] *)
Definition orTypeError {A} (o : option A) : M S E A :=
  match o with Some a => ret a | None => throw TypeError end.

Definition when (b : bool) (c : M S E unit) : M S E unit :=
  if b then c else ret tt.

(** [items.map((r, i) => f r i)] from index [i] on, [f] may throw *)
Fixpoint mapFrom {A B} (f : A -> nat -> M S E B) (i : nat) (items : list A)
  : M S E (list B) :=
  match items with
  | [] => ret []
  | x :: rest =>
      bind (f x i) (fun y =>
      bind (mapFrom f (Datatypes.S i) rest) (fun ys => ret (y :: ys)))
  end.

(** [items.filter(p)], [p] may throw *)
Fixpoint filterM {A} (p : A -> M S E bool) (items : list A)
  : M S E (list A) :=
  match items with
  | [] => ret []
  | x :: rest =>
      bind (p x) (fun keep =>
      bind (filterM p rest) (fun ys => ret (if keep then x :: ys else ys)))
  end.
End Ops.

Module Import Notations.
Notation "'do' x <- c ; k" := (bind c (fun x => k))
    (at level 10, x name, c at level 100, k at level 200,
     format "'[v' 'do'  x  <-  c ; '/' k ']'").
End Notations.

End Eff.

(* ===================================================================== *)
(** ** The bookings card *)
(* ===================================================================== *)

Module Card.
Import JS Eff Eff.Notations.

Definition LIST_PATH : string := "/upcoming".
Definition CREATE_PATH : string := "/book".

(** *** Small helpers *)

(** The variables [month], [day], [hour], [minute], [dayPeriod] of
    [formatDateAny], all [undefined] until a part assigns them *)
Record Parts : Type := {
  month : value;
  day : value;
  hour : value;
  minute : value;
  dayPeriod : value;
}.

Definition noParts : Parts :=
  {| month := Undefined; day := Undefined; hour := Undefined;
     minute := Undefined; dayPeriod := Undefined |}.

(** One turn of the loop over the parts *)
Definition assignPart (acc : Parts) (p : string * string) : Parts :=
  let '(type, v) := p in
  if String.eqb type "month" then
    {| month := Str v; day := day acc; hour := hour acc;
       minute := minute acc; dayPeriod := dayPeriod acc |}
  else if String.eqb type "day" then
    {| month := month acc; day := Str v; hour := hour acc;
       minute := minute acc; dayPeriod := dayPeriod acc |}
  else if String.eqb type "hour" then
    {| month := month acc; day := day acc; hour := Str v;
       minute := minute acc; dayPeriod := dayPeriod acc |}
  else if String.eqb type "minute" then
    {| month := month acc; day := day acc; hour := hour acc;
       minute := Str v; dayPeriod := dayPeriod acc |}
  else if String.eqb type "dayPeriod" then
    {| month := month acc; day := day acc; hour := hour acc;
       minute := minute acc; dayPeriod := Str (toLowerCase v) |}
  else acc.

(** What the table shows for a date. Of a value that is not [stringable]
    both [new Date(v)] and the [String(v)] of the handler throw, so the
    function has a result on the [stringable] values only. *)
Definition formatDateAny (h : Host.t) (v : value) : string :=
  if negb (truthy v) then ""
  else
    match Date.make h v with
    | NaN => toString v
    | Num t =>
        match Host.formatToParts h t with
        | None => toString v
        | Some parts =>
            let p := List.fold_left assignPart parts noParts in
            toString (month p) ++ "-" ++ toString (day p) ++ " "
            ++ toString (hour p) ++ ":" ++ toString (minute p)
            ++ toString (dayPeriod p)
        end
    end.

(** A row of the table, as [normalizeRow] builds it *)
Record Booking : Type := {
  id : value;
  name : value;
  email : value;
  phone : value;
  note : value;
  starts_at : value;
  created_at : value;
  completed : bool;
  tenant_id : value;
}.

(** [r.k] once [r] is known not to be [null] or [undefined] *)
Definition prop (r : value) (k : string) : value :=
  match get r k with Some v => v | None => Undefined end.

(** The key made up for a record without one *)
Definition syntheticId (r : value) (startsAt : value) (i : nat) : string :=
  toString (or (prop r "name") (Str "row")) ++ "-"
  ++ toString (or startsAt (Number (Num (Z.of_nat i)))).

(** The service and the address that make the note when there is no other *)
Definition noteParts (r : value) : list value :=
  List.filter truthy [prop r "service"; prop r "address"].

(** The [join] is reached ([note] and [notes] are both falsy) and one of its
    elements has no string *)
Definition joinThrows (r : value) : bool :=
  negb (truthy (prop r "note")) && negb (truthy (prop r "notes"))
  && negb (List.forallb stringable (noteParts r)).

(** The template literal is reached ([id], [booking_id] and [pk] are all
    [null] or [undefined]) and one of its two holes has no string *)
Definition keyThrows (r : value) (startsAt : value) (i : nat) : bool :=
  nullish (prop r "id") && nullish (prop r "booking_id")
  && nullish (prop r "pk")
  && negb (stringable (or (prop r "name") (Str "row"))
           && stringable (or startsAt (Number (Num (Z.of_nat i))))).

(** [None] is a [TypeError]: [r] is [null] or [undefined] and the first
    property read throws, or the note or the key has to print a value that
    has no string. *)
Definition normalizeRow (r : value) (i : nat) : option Booking :=
  if nullish r then None
  else
    let startsAt :=
      orChain [prop r "starts_at"; prop r "start"; prop r "starts_at_iso";
               prop r "start_iso"; prop r "when"] Null in
    let createdAt :=
      orChain [prop r "created_at"; prop r "created"; prop r "created_at_iso";
               prop r "createdAt"] Null in
    if joinThrows r || keyThrows r startsAt i then None
    else
    let note :=
      orChain [prop r "note"; prop r "notes";
               Str (join " | " (List.map toString
                      (List.filter truthy [prop r "service"; prop r "address"])))]
              (Str "") in
    Some {|
      id := coalesceChain [prop r "id"; prop r "booking_id"; prop r "pk"]
              (Str (syntheticId r startsAt i));
      name := or (prop r "name") (Str "");
      email := or (prop r "email") (Str "");
      phone := or (prop r "phone") (Str "");
      note := note;
      starts_at := startsAt;
      created_at := createdAt;
      completed := truthy (or (prop r "completed") (prop r "completed_at"));
      tenant_id := orChain [prop r "tenant_id"; prop r "tenant"] Null;
    |}.

(** *** Labelling a wall-clock reading with the local offset *)

(** [localWall.length === 16 ? localWall + ":00" : localWall] *)
Definition withSeconds (localWall : string) : string :=
  if (String.length localWall =? 16)%nat then localWall ++ ":00" else localWall.

(** The sign and the digits appended for [getTimezoneOffset() = offMin] *)
Definition offsetSuffix (offMin : number) : string :=
  let sign := if gt0 offMin then "-" else "+" in
  let abs := JS.abs offMin in
  let hh := padStart (numberToString (floorDiv abs 60)) 2 "0" in
  let mm := padStart (numberToString (rem abs 60)) 2 "0" in
  sign ++ hh ++ ":" ++ mm.

Definition localWallToZonedIso (h : Host.t) (localWall : string) : string :=
  let wall := withSeconds localWall in
  let d := Date.make h (Str wall) in
  let offMin := Date.getTimezoneOffset h d in
  wall ++ offsetSuffix offMin.

(** *** Component state *)

Module Form.
Record t : Type := {
  name : string;
  email : string;
  phone : string;
  startsAt : string;
  note : string;
}.
Definition empty : t :=
  {| name := ""; email := ""; phone := ""; startsAt := ""; note := "" |}.
End Form.

(** The cells the controls above the table write *)
Record ViewState : Type := {
  range : string;
  search : string;
  hidePast : bool;
  sortBy : string;
  showCompletedOnly : bool;
  showIncompleteOnly : bool;
}.

Record State : Type := {
  rows : list Booking;
  loading : bool;
  view : ViewState;
  form : Form.t;
  adding : bool;
}.

(** The [useState] initial values *)
Definition initialView : ViewState :=
  {| range := "7d"; search := ""; hidePast := true; sortBy := "upcoming";
     showCompletedOnly := false; showIncompleteOnly := false |}.

Definition initial : State :=
  {| rows := []; loading := false; view := initialView;
     form := Form.empty; adding := false |}.

Definition setRows (l : list Booking) (s : State) : State :=
  {| rows := l; loading := loading s; view := view s;
     form := form s; adding := adding s |}.
Definition setLoading (b : bool) (s : State) : State :=
  {| rows := rows s; loading := b; view := view s;
     form := form s; adding := adding s |}.
Definition setForm (f : Form.t) (s : State) : State :=
  {| rows := rows s; loading := loading s; view := view s;
     form := f; adding := adding s |}.
Definition setAdding (b : bool) (s : State) : State :=
  {| rows := rows s; loading := loading s; view := view s;
     form := form s; adding := b |}.
Definition setView (v : ViewState) (s : State) : State :=
  {| rows := rows s; loading := loading s; view := v;
     form := form s; adding := adding s |}.

(** *** The controls *)

Inductive Control : Type :=
| SelectRange (value : string)
| CheckHidePast (checked : bool)
| CheckCompletedOnly (checked : bool)
| CheckIncompleteOnly (checked : bool)
| ClickSort (key : string)
| TypeSearch (value : string).

(** The [onChange] / [onClick] handler of each control *)
Definition control (c : Control) (v : ViewState) : ViewState :=
  match c with
  | SelectRange x =>
      {| range := x; search := search v; hidePast := hidePast v;
         sortBy := sortBy v; showCompletedOnly := showCompletedOnly v;
         showIncompleteOnly := showIncompleteOnly v |}
  | CheckHidePast checked =>
      {| range := range v; search := search v; hidePast := checked;
         sortBy := sortBy v; showCompletedOnly := showCompletedOnly v;
         showIncompleteOnly := showIncompleteOnly v |}
  | CheckCompletedOnly checked =>
      {| range := range v; search := search v; hidePast := hidePast v;
         sortBy := sortBy v; showCompletedOnly := checked;
         showIncompleteOnly :=
           if checked then false else showIncompleteOnly v |}
  | CheckIncompleteOnly checked =>
      {| range := range v; search := search v; hidePast := hidePast v;
         sortBy := sortBy v;
         showCompletedOnly := if checked then false else showCompletedOnly v;
         showIncompleteOnly := checked |}
  | ClickSort key =>
      {| range := range v; search := search v; hidePast := hidePast v;
         sortBy := key; showCompletedOnly := showCompletedOnly v;
         showIncompleteOnly := showIncompleteOnly v |}
  | TypeSearch x =>
      {| range := range v; search := x; hidePast := hidePast v;
         sortBy := sortBy v; showCompletedOnly := showCompletedOnly v;
         showIncompleteOnly := showIncompleteOnly v |}
  end.

(** *** The network and what a handler leaves behind *)

(** What the user and the network see of a handler, in order. The body of a
    request is the object handed to [JSON.stringify]. *)
Inductive Event : Type :=
| Alert (msg : string)
| ConsoleError (e : error)
| Fetch (method path : string) (body : option value).

(** A response: [text] is [None] when [res.text()] rejects, [json] is an
    error when [res.json()] rejects. *)
Record Response : Type := {
  status : Z;
  text : option string;
  json : error + value;
}.

(** [res.ok] *)
Definition ok (res : Response) : bool :=
  (200 <=? status res) && (status res <=? 299).

(** How the one [fetch] of a handler turns out *)
Inductive Reply : Type :=
| Rejected (e : error)
| Replied (res : Response).

Definition Handler (A : Type) : Type := M State Event A.

Definition fetch (method path : string) (body : option value) (reply : Reply)
  : Handler Response :=
  do _ <- emit (Fetch method path body);
  match reply with
  | Rejected e => throw e
  | Replied res => ret res
  end.

Definition resJson (res : Response) : Handler value :=
  match json res with
  | inl e => throw e
  | inr v => ret v
  end.

Definition httpStatus (res : Response) : string :=
  "HTTP " ++ numberToString (Num (status res)).

Definition apiGet (path : string) (reply : Reply) : Handler Response :=
  fetch "GET" path None reply.

Definition apiJson (path method : string) (body : value) (reply : Reply)
  : Handler value :=
  do res <- fetch method path (Some body) reply;
  if negb (ok res) then
    let txt := match text res with Some t => t | None => "" end in
    throw (Error (if String.eqb txt "" then httpStatus res else txt))
  else resJson res.

(** [err.message || err] inside a template literal. No [TypeError] of the
    engine reaches the one [catch] that prints its error. *)
Definition describe (e : error) : string :=
  match e with
  | Error m => if String.eqb m "" then "Error" else m
  | HostError n m => if String.eqb m "" then n else m
  | TypeError => "TypeError"
  end.

(** *** Loading the list *)

(** The value [loadBookings] calls [.map] on *)
Definition itemsOf (data : value) : value :=
  if isArray data then data
  else
    match data with
    | Obj props =>
        let items :=
          orChain [prop data "items"; prop data "bookings"; prop data "rows";
                   prop data "data"] (Arr []) in
        if negb (truthy (prop items "length")) then
          match List.find isArray (List.map snd props) with
          | Some firstArray => firstArray
          | None => Arr []
          end
        else items
    | _ => Arr []
    end.

(** [items.map((r, i) => normalizeRow(r, i))]; only an array has [map] *)
Definition normalizeAll (items : value) : Handler (list Booking) :=
  match items with
  | Arr l => mapFrom (fun r i => orTypeError (normalizeRow r i)) 0%nat l
  | _ => throw TypeError
  end.

Definition loadBookings (reply : Reply) : Handler unit :=
  do _ <- modify (setLoading true);
  finally
    (tryCatch
       (do res <- apiGet LIST_PATH reply;
        do _ <- when (negb (ok res)) (throw (Error (httpStatus res)));
        do data <- resJson res;
        do l <- normalizeAll (itemsOf data);
        modify (setRows l))
       (fun e =>
          do _ <- emit (ConsoleError e);
          do _ <- emit (Alert "Could not load bookings");
          modify (setRows [])))
    (modify (setLoading false)).

(** *** Creating a booking *)

Definition pad2 (n : number) : string := padStart (numberToString n) 2 "0".

(** [toWall]: the local calendar fields of [d] as a wall-clock string *)
Definition toWall (h : Host.t) (d : number) : string :=
  numberToString (Date.getFullYear h d) ++ "-"
  ++ pad2 (add (Date.getMonth h d) (Num 1)) ++ "-"
  ++ pad2 (Date.getDate h d) ++ "T"
  ++ pad2 (Date.getHours h d) ++ ":"
  ++ pad2 (Date.getMinutes h d) ++ ":"
  ++ pad2 (Date.getSeconds h d).

(** [x || null] for a string [x] *)
Definition orNull (x : string) : value :=
  if String.eqb x "" then Null else Str x.

(** The object posted to [CREATE_PATH] for the form [f] *)
Definition createBody (h : Host.t) (f : Form.t) : value :=
  let startWall := withSeconds (Form.startsAt f) in
  let startDate := Date.make h (Str startWall) in
  let endDate := Date.make h (Number (add startDate (Num (60 * 60 * 1000)))) in
  let startIso := localWallToZonedIso h startWall in
  let endIso := localWallToZonedIso h (toWall h endDate) in
  Obj [("start", Str startIso); ("end", Str endIso);
       ("name", Str (Form.name f)); ("email", orNull (Form.email f));
       ("phone", orNull (Form.phone f)); ("notes", orNull (Form.note f))].

(** [post] answers the create request, [list] the reload that follows *)
Definition handleAdd (h : Host.t) (post list : Reply) : Handler unit :=
  do f <- gets form;
  if String.eqb (Form.name f) "" || String.eqb (Form.startsAt f) "" then
    emit (Alert "Name and time required")
  else
    do _ <- modify (setAdding true);
    finally
      (tryCatch
         (do _ <- apiJson CREATE_PATH "POST" (createBody h f) post;
          do _ <- modify (setForm Form.empty);
          loadBookings list)
         (fun err => emit (Alert ("Create failed: " ++ describe err))))
      (modify (setAdding false)).

(** *** The component as a transition system *)

Definition markCompleted (b : Booking) : Booking :=
  {| id := id b; name := name b; email := email b; phone := phone b;
     note := note b; starts_at := starts_at b; created_at := created_at b;
     completed := true; tenant_id := tenant_id b |}.

(** One event of the card. A handler that awaits the network is taken in
    one piece. [completeBooking] and [deleteBooking] write [rows] only: they
    mark, or drop, the rows whose [id] is the one clicked, here whatever
    rows [hit] selects; typing in the form replaces the form. *)
Inductive step (h : Host.t) : State -> State -> Prop :=
| step_control (c : Control) (s : State) :
    step h s (setView (control c (view s)) s)
| step_type (f : Form.t) (s : State) :
    step h s (setForm f s)
| step_load (reply : Reply) (s : State) r s' w :
    loadBookings reply s = (r, s', w) -> step h s s'
| step_add (post list : Reply) (s : State) r s' w :
    handleAdd h post list s = (r, s', w) -> step h s s'
| step_complete (hit : Booking -> bool) (s : State) :
    step h s
      (setRows (List.map (fun b => if hit b then markCompleted b else b) (rows s)) s)
| step_delete (hit : Booking -> bool) (s : State) :
    step h s (setRows (List.filter (fun b => negb (hit b)) (rows s)) s).

Inductive reachable (h : Host.t) : State -> Prop :=
| reachable_initial : reachable h initial
| reachable_step s s' : reachable h s -> step h s s' -> reachable h s'.

(** *** Search, hide past, completed filter and sort

    The pipeline runs on every render over arrays that live in the heap:
    [[...a]] and [a.filter(p)] allocate, [a.sort(cmp)] writes the array it
    is called on and returns it. No step writes a field of a row, so an
    array is the list of its rows. *)

Abbreviation Ref := nat (only parsing).
Abbreviation Heap := (gmap nat (list Booking)) (only parsing).

Definition Render (A : Type) : Type := M Heap Empty_set A.

Definition alloc (l : list Booking) : Render Ref :=
  fun σ => let r := fresh (dom σ) in (Done r, <[r := l]> σ, []).

(** A reference the heap does not hold is no array *)
Definition read (r : Ref) : Render (list Booking) :=
  fun σ =>
    match σ !! r with
    | Some l => (Done l, σ, [])
    | None => (Thrown TypeError, σ, [])
    end.

Definition write (r : Ref) (l : list Booking) : Render unit :=
  modify (fun σ : Heap => <[r := l]> σ).

(** [[...a]] *)
Definition spread (a : Ref) : Render Ref :=
  do l <- read a; alloc l.

(** [a.filter(p)] *)
Definition filterArr (p : Booking -> Render bool) (a : Ref) : Render Ref :=
  do l <- read a;
  do kept <- filterM p l;
  alloc kept.

(** Where [x] goes in a list already in order: after every [y] that
    [cmp x y > 0] puts before it. A [NaN] from [cmp] counts as 0. *)
Fixpoint insertBy (cmp : Booking -> Booking -> number) (x : Booking)
  (l : list Booking) : list Booking :=
  match l with
  | [] => [x]
  | y :: rest => if gt0 (cmp x y) then y :: insertBy cmp x rest else x :: l
  end.

(** The order [Array.prototype.sort] gives: a stable sort. With
    a comparator that is not consistent (one that answers [NaN] for some
    pairs only) the standard leaves the order to the engine; this is then
    one order an engine may give. *)
Definition sortWith (cmp : Booking -> Booking -> number) (l : list Booking)
  : list Booking :=
  List.fold_right (insertBy cmp) [] l.

(** [a.sort(cmp)] *)
Definition sortArr (cmp : Booking -> Booking -> number) (a : Ref)
  : Render Ref :=
  do l <- read a;
  do _ <- write a (sortWith cmp l);
  ret a.

(** [(v || "").toLowerCase()]; only a string has [toLowerCase] *)
Definition lowerOf (v : value) : option string :=
  match or v (Str "") with
  | Str s => Some (toLowerCase s)
  | _ => None
  end.

(** [(v || "").toLowerCase().includes(q)] *)
Definition fieldIncludes (v : value) (q : string) : Render bool :=
  do s <- orTypeError (lowerOf v);
  ret (includes s q).

(** [a || b] with [b] evaluated only when [a] is false *)
Definition orElse (a b : Render bool) : Render bool :=
  do x <- a; if x then ret true else b.

Definition matchesSearch (q : string) (r : Booking) : Render bool :=
  orElse (fieldIncludes (name r) q)
    (orElse (fieldIncludes (phone r) q)
       (orElse (fieldIncludes (email r) q) (fieldIncludes (note r) q))).

Definition filterBySearch (list : Ref) (term : string) : Render Ref :=
  let q := trim (toLowerCase term) in
  if String.eqb q "" then ret list
  else filterArr (matchesSearch q) list.

(** [new Date(b.starts_at).getTime()] *)
Definition startTime (h : Host.t) (b : Booking) : number :=
  Date.make h (starts_at b).

(** The test of the [hidePast] filter: [!isNaN(t) && t >= now] *)
Definition notPast (h : Host.t) (now : Z) (b : Booking) : bool :=
  let t := startTime h b in negb (isNaN t) && ge t (Num now).

(** [now] is [Date.now()], [rows] the array in the [rows] cell *)
Definition filtered (h : Host.t) (now : Z) (v : ViewState) (rows : Ref)
  : Render Ref :=
  do base <- spread rows;
  do base <- filterBySearch base (search v);
  do base <-
    (if hidePast v then filterArr (fun b => ret (notPast h now b)) base
     else ret base);
  if showCompletedOnly v then
    filterArr (fun b => ret (completed b)) base
  else if showIncompleteOnly v then
    filterArr (fun b => ret (negb (completed b))) base
  else ret base.

Definition byStart (h : Host.t) (a b : Booking) : number :=
  sub (Date.make h (starts_at a)) (Date.make h (starts_at b)).

Definition byCreated (h : Host.t) (a b : Booking) : number :=
  sub (Date.make h (or (created_at b) (starts_at b)))
      (Date.make h (or (created_at a) (starts_at a))).

Definition sorted (h : Host.t) (v : ViewState) (filtered : Ref) : Render Ref :=
  do arr <- spread filtered;
  if String.eqb (sortBy v) "upcoming" then sortArr (byStart h) arr
  else if String.eqb (sortBy v) "created" then sortArr (byCreated h) arr
  else ret arr.

(** The array the table is drawn from *)
Definition visible (h : Host.t) (now : Z) (v : ViewState) (rows : Ref)
  : Render Ref :=
  do f <- filtered h now v rows;
  sorted h v f.

(** *** Completing and deleting a row

    The id of a row a handler is given, for an id that is compared by
    value: a boolean, a number or a string. (An id that is an array or an
    object is compared by identity, which a [value] does not record.) *)

Inductive Key : Type :=
| KeyBoolean (b : bool)
| KeyNumber (n : number)
| KeyString (s : string).

Definition keyValue (k : Key) : value :=
  match k with
  | KeyBoolean b => Boolean b
  | KeyNumber n => Number n
  | KeyString s => Str s
  end.

(** [v === k] *)
Definition strictEquals (v : value) (k : Key) : bool :=
  match v, k with
  | Boolean a, KeyBoolean b => Bool.eqb a b
  | Number (Num x), KeyNumber (Num y) => x =? y
  | Str a, KeyString b => String.eqb a b
  | _, _ => false
  end.

(** The trace of a handler that asks before it acts *)
Inductive Dialog : Type :=
| Confirm (msg : string)
| Plain (ev : Event).

Definition Asking (A : Type) : Type := M State Dialog A.

(** [txt || `HTTP ${res.status}`] with [txt = await res.text().catch(() => "")] *)
Definition failureText (res : Response) : string :=
  let txt := match text res with Some t => t | None => "" end in
  if String.eqb txt "" then httpStatus res else txt.

(** The [fetch] of the two handlers and the test of the response *)
Definition request (method path : string) (reply : Reply) : Asking unit :=
  do _ <- emit (Plain (Fetch method path None));
  do res <- match reply with
            | Rejected e => throw e
            | Replied res => ret res
            end;
  if negb (ok res) then throw (Error (failureText res)) else ret tt.

(** [confirmed] is the answer to the dialog *)
Definition completeBooking (id : Key) (confirmed : bool) (reply : Reply)
  : Asking unit :=
  do _ <- emit (Confirm ("Mark booking #" ++ toString (keyValue id)
                         ++ " as completed and send review SMS?"));
  if negb confirmed then ret tt
  else
    tryCatch
      (do _ <- request "POST"
                 ("/bookings/" ++ toString (keyValue id) ++ "/complete") reply;
       modify (fun s =>
         setRows (List.map (fun b => if strictEquals (Card.id b) id
                                     then markCompleted b else b) (rows s)) s))
      (fun err => emit (Plain (Alert ("Complete failed: " ++ describe err)))).

Definition deleteBooking (id : Key) (confirmed : bool) (reply : Reply)
  : Asking unit :=
  do _ <- emit (Confirm ("Delete booking #" ++ toString (keyValue id) ++ "?"));
  if negb confirmed then ret tt
  else
    tryCatch
      (do _ <- request "DELETE"
                 ("/tenant/bookings/" ++ toString (keyValue id)) reply;
       modify (fun s =>
         setRows (List.filter (fun r => negb (strictEquals (Card.id r) id))
                    (rows s)) s))
      (fun err => emit (Plain (Alert ("Delete failed: " ++ describe err)))).

End Card.

(* ===================================================================== *)
(** ** Vocabulary of the statements *)
(* ===================================================================== *)

Module Props.
Import JS Eff Card.

(** The three components of a run *)
Definition result {S E A} (run : outcome A * S * list E) : outcome A := run.1.1.
Definition after {S E A} (run : outcome A * S * list E) : S := run.1.2.
Definition trace {S E A} (run : outcome A * S * list E) : list E := run.2.

(** [c] keeps the invariant [I] of the state, however it ends *)
Definition keeps {S E A} (I : S -> Prop) (c : M S E A) : Prop :=
  forall s, I s -> I (after (c s)).

Definition isAlert (ev : Event) : bool :=
  match ev with Alert _ => true | _ => false end.

Definition isFetch (ev : Event) : bool :=
  match ev with Fetch _ _ _ => true | _ => false end.

(** The notifications raised and the network calls issued along a trace *)
Definition alerts (w : list Event) : list Event := List.filter isAlert w.
Definition fetches (w : list Event) : list Event := List.filter isFetch w.

(** The network call of a load fails: [fetch] rejects, or the response
    is not 2xx. *)
Definition loadFails (reply : Reply) : Prop :=
  match reply with
  | Rejected _ => True
  | Replied res => ok res = false
  end.

(** At most one of the two completion filters is on *)
Definition exclusive (v : ViewState) : Prop :=
  showCompletedOnly v && showIncompleteOnly v = false.

(** The suffix printed for [offMin] reads back as the offset [- offMin] *)
Definition suffixReadsBack (offMin : Z) : bool :=
  match Calendar.offsetOf (offsetSuffix (Num offMin)) with
  | Some east => east =? - offMin
  | None => false
  end.

(** The offsets of less than a day, [-1439 .. 1439] *)
Definition dayOffsets : list Z :=
  List.map (fun k => Z.of_nat k - 1439) (List.seq 0 2879).


(** The record has a start time under one of the five names *)
Definition hasStart (r : value) : bool :=
  truthy (orChain [prop r "starts_at"; prop r "start"; prop r "starts_at_iso";
                   prop r "start_iso"; prop r "when"] Null).

(** The start time [normalizeRow] finds in a record *)
Definition startOf (r : value) : value :=
  orChain [prop r "starts_at"; prop r "start"; prop r "starts_at_iso";
           prop r "start_iso"; prop r "when"] Null.

(** A record [normalizeRow] makes a row of whatever else it holds: it is
    not [null], and what the note and the key may have to print (service,
    address, name and start time) has a string. *)
Definition printable (r : value) : Prop :=
  nullish r = false
  /\ stringable (prop r "name") = true
  /\ stringable (startOf r) = true
  /\ stringable (prop r "service") = true
  /\ stringable (prop r "address") = true.



(** *** The pipeline on the heap *)

(** [r] is an array of [σ] that was not there in [σ0], it holds [l], and
    every array of [σ0] is in [σ] as it was. *)
Definition holds (σ0 σ : Heap) (r : Ref) (l : list Booking) : Prop :=
  σ0 ⊆ σ /\ σ !! r = Some l /\ σ0 !! r = None.

(** Started in [σ], which has the arrays of [σ0] as they were, [c] leaves
    them so and returns a new array holding [out], or throws [e]. *)
Definition returns (σ0 : Heap) (c : Render Ref) (σ : Heap)
  (content : outcome (list Booking)) : Prop :=
  match content with
  | Done out => exists r σ', c σ = (Done r, σ', []) /\ holds σ0 σ' r out
  | Thrown e => exists σ', c σ = (Thrown e, σ', []) /\ σ0 ⊆ σ'
  end.

(** The rows the search keeps; the test reads no array *)
Definition searchContent (term : string) (l : list Booking)
  : outcome (list Booking) :=
  let q := trim (toLowerCase term) in
  if String.eqb q "" then Done l
  else (filterM (S := Heap) (E := Empty_set) (matchesSearch q) l ∅).1.1.

Definition completionContent (v : ViewState) (l : list Booking)
  : list Booking :=
  if showCompletedOnly v then List.filter completed l
  else if showIncompleteOnly v then List.filter (fun b => negb (completed b)) l
  else l.

Definition sortedContent (h : Host.t) (v : ViewState) (l : list Booking)
  : list Booking :=
  if String.eqb (sortBy v) "upcoming" then sortWith (byStart h) l
  else if String.eqb (sortBy v) "created" then sortWith (byCreated h) l
  else l.

(** The rows of the array [filtered] returns when [rows] holds [l] *)
Definition filteredContent (h : Host.t) (now : Z) (v : ViewState)
  (l : list Booking) : outcome (list Booking) :=
  match searchContent (search v) l with
  | Thrown e => Thrown e
  | Done found =>
      Done (completionContent v
              (if hidePast v then List.filter (notPast h now) found else found))
  end.

(** The rows of the array [visible] returns when [rows] holds [l] *)
Definition visibleContent (h : Host.t) (now : Z) (v : ViewState)
  (l : list Booking) : outcome (list Booking) :=
  match filteredContent h now v l with
  | Thrown e => Thrown e
  | Done kept => Done (sortedContent h v kept)
  end.

(** What a render shows: the rows of the array it returns *)
Definition shown (run : outcome Ref * Heap * list Empty_set)
  : outcome (option (list Booking)) :=
  match result run with
  | Done r => Done (after run !! r)
  | Thrown e => Thrown e
  end.

(** The four fields the search reads are strings, or falsy *)
Definition textual (b : Booking) : Prop :=
  is_Some (lowerOf (name b)) /\ is_Some (lowerOf (phone b))
  /\ is_Some (lowerOf (email b)) /\ is_Some (lowerOf (note b)).

(** A text field that is a string holds ASCII characters only: what
    [toLowerCase] and [trim] do to it is what the model does. *)
Definition asciiField (v : value) : bool :=
  match v with Str s => asciiOnly s | _ => true end.

Definition asciiText (b : Booking) : Prop :=
  asciiField (name b) = true /\ asciiField (phone b) = true
  /\ asciiField (email b) = true /\ asciiField (note b) = true.

(** [new Date] takes the two dates of the row: neither is an object, or an
    array holding one, with a [toString] property of its own. *)
Definition dated (b : Booking) : Prop :=
  stringable (starts_at b) = true /\ stringable (created_at b) = true.

(** *** Sample data *)

Definition bob : Booking :=
  {| id := Number (Num 2); name := Str "Bob"; email := Str "";
     phone := Str ""; note := Str "";
     starts_at := Str "2024-05-01T10:00:00-04:00"; created_at := Null;
     completed := true; tenant_id := Null |}.

(** Two records without an id, same name, same start *)
Definition twins : list value :=
  [Obj [("name", Str "Jane"); ("start", Str "2024-06-01T10:00:00-04:00")];
   Obj [("name", Str "Jane"); ("start", Str "2024-06-01T10:00:00-04:00")]].



(** A record whose name is an object with a [toString] property of its own *)
Definition unprintable : list value :=
  [Obj [("name", Obj [("toString", Null)])]].

(** The same name under an id *)
Definition unprintableWithId : list value :=
  [Obj [("id", Number (Num 7)); ("name", Obj [("toString", Null)])]].

(** 1:30 on the night the clocks go back in New York: a reading that
    occurs twice, first in daylight time *)
Definition repeatedHourForm : Form.t :=
  {| Form.name := "Jane"; Form.email := ""; Form.phone := "";
     Form.startsAt := "2024-11-03T01:30"; Form.note := "" |}.

(** 2:30 on the night the clocks go forward: a reading that is skipped *)
Definition skippedHourForm : Form.t :=
  {| Form.name := "Jane"; Form.email := ""; Form.phone := "";
     Form.startsAt := "2024-03-10T02:30"; Form.note := "" |}.

Definition accepted : Reply :=
  Replied {| status := 200; text := Some "{}"; json := inr (Obj []) |}.

Definition jane : Booking :=
  {| id := Number (Num 1); name := Str "Jane"; email := Str "";
     phone := Str ""; note := Str "";
     starts_at := Str "2024-06-01T10:00:00-04:00"; created_at := Null;
     completed := false; tenant_id := Null |}.

(** "Completed only" checked, then "Incomplete only" *)
Definition bothClicked : State :=
  setView (control (CheckIncompleteOnly true)
             (control (CheckCompletedOnly true) initialView)) initial.

(** A form with a time but no name *)
Definition namelessForm : Form.t :=
  {| Form.name := ""; Form.email := ""; Form.phone := "";
     Form.startsAt := "2024-06-01T10:00"; Form.note := "" |}.

Definition offline : Reply := Rejected (HostError "TypeError" "Failed to fetch").

Definition serverError : Reply :=
  Replied {| status := 500; text := Some "boom"; json := inl (HostError "SyntaxError" "") |}.

(** Two rows on a heap of their own, the view with "Hide past" unchecked,
    and noon of 15 May 2024 in New York *)
Definition twoRows : Heap := {[ 0%nat := [jane; bob] ]}.
Definition showAll : ViewState := control (CheckHidePast false) initialView.
Definition midMay : Z := 1715788800000.

(** *** Handlers that ask first *)

Definition isPlainAlert (d : Dialog) : bool :=
  match d with Plain (Alert _) => true | _ => false end.

Definition isPlainFetch (d : Dialog) : bool :=
  match d with Plain (Fetch _ _ _) => true | _ => false end.

Definition dialogAlerts (w : list Dialog) : list Dialog :=
  List.filter isPlainAlert w.
Definition dialogFetches (w : list Dialog) : list Dialog :=
  List.filter isPlainFetch w.

(** What a handler catches for a reply, if anything: the rejection of the
    fetch, or the error made from a response that is not 2xx *)
Definition replyError (reply : Reply) : option error :=
  match reply with
  | Rejected e => Some e
  | Replied res => if ok res then None else Some (Error (failureText res))
  end.

Definition completePrompt (id : Key) : string :=
  "Mark booking #" ++ toString (keyValue id)
  ++ " as completed and send review SMS?".

Definition deletePrompt (id : Key) : string :=
  "Delete booking #" ++ toString (keyValue id) ++ "?".

(** Three rows, the middle one with the id of the first *)
Definition threeRows : State :=
  setRows [jane; markCompleted jane; bob] initial.

(** *** What a load comes to *)

(** [items.map(normalizeRow)] from index [k] on; [None] when a record is
    [null] *)
Fixpoint normalizeFrom (k : nat) (items : list value) : option (list Booking) :=
  match items with
  | [] => Some []
  | r :: rest =>
      match normalizeRow r k, normalizeFrom (S k) rest with
      | Some b, Some l => Some (b :: l)
      | _, _ => None
      end
  end.

(** The rows the [try] block of [loadBookings] sets, or the error its
    [catch] receives *)
Definition loadedRows (reply : Reply) : error + list Booking :=
  match reply with
  | Rejected e => inl e
  | Replied res =>
      if negb (ok res) then inl (Error (httpStatus res))
      else
        match json res with
        | inl e => inl e
        | inr data =>
            match itemsOf data with
            | Arr items =>
                match normalizeFrom 0 items with
                | Some l => inr l
                | None => inl TypeError
                end
            | _ => inl TypeError
            end
        end
  end.

(** A 2xx response whose body parses to [data] *)
Definition replyJson (data : value) : Reply :=
  Replied {| status := 200; text := None; json := inr data |}.

(** No property of the object is an array *)
Definition noArray (props : list (string * value)) : Prop :=
  Forall (fun kv => isArray kv.2 = false) props.

(** None of the four wrapper keys holds a truthy value *)
Definition noWrapper (props : list (string * value)) : Prop :=
  truthy (assoc "items" props) = false
  /\ truthy (assoc "bookings" props) = false
  /\ truthy (assoc "rows" props) = false
  /\ truthy (assoc "data" props) = false.

(** What the [catch] of [handleAdd] receives for the reply to the create
    request, if anything *)
Definition postError (reply : Reply) : option error :=
  match reply with
  | Rejected e => Some e
  | Replied res =>
      if ok res then match json res with inl e => Some e | inr _ => None end
      else Some (Error (failureText res))
  end.

(** A form that passes the guard of [handleAdd] *)
Definition filledIn (f : Form.t) : Prop :=
  Form.name f <> "" /\ Form.startsAt f <> "".

Definition janeAtTen : Form.t :=
  {| Form.name := "Jane"; Form.email := "jane@example.com"; Form.phone := "";
     Form.startsAt := "2024-06-01T10:00"; Form.note := "" |}.

(** A 422 with a message in its body *)
Definition refused : Reply :=
  Replied {| status := 422; text := Some "slot taken";
             json := inl (HostError "SyntaxError" "") |}.

(** *** The filters, row by row *)

(** [q] occurs in the lower-cased field; a field that is no string has no
    lower case *)
Definition fieldHit (q : string) (v : value) : bool :=
  match lowerOf v with Some s => includes s q | None => false end.

Definition rowHit (q : string) (b : Booking) : bool :=
  fieldHit q (name b) || fieldHit q (phone b) || fieldHit q (email b)
  || fieldHit q (note b).

(** The search box lets the row through *)
Definition searchPass (term : string) (b : Booking) : bool :=
  let q := trim (toLowerCase term) in
  String.eqb q "" || rowHit q b.

(** The completion check boxes let the row through *)
Definition completionPass (v : ViewState) (b : Booking) : bool :=
  if showCompletedOnly v then completed b
  else if showIncompleteOnly v then negb (completed b)
  else true.

(** The row passes every filter that is on *)
Definition passes (h : Host.t) (now : Z) (v : ViewState) (b : Booking) : bool :=
  searchPass (search v) b
  && (negb (hidePast v) || notPast h now b)
  && completionPass v b.









(** Jane again, booked later the same day *)
Definition janeLater : Booking :=
  {| id := Number (Num 3); name := Str "Jane"; email := Str "";
     phone := Str ""; note := Str "";
     starts_at := Str "2024-06-01T15:00:00-04:00";
     created_at := Str "2024-05-20T09:00:00-04:00";
     completed := false; tenant_id := Null |}.

Definition threeOnHeap : Heap := {[ 0%nat := [janeLater; jane; bob] ]}.

(** The sort by creation, on the view of [showAll] *)
Definition newestFirst : ViewState := control (ClickSort "created") showAll.

(** A search for "ja" *)
Definition searchJa : ViewState := control (TypeSearch " Ja ") showAll.

(** A value the defaults of [normalizeRow] can leave: truthy, or [fallback] *)
Definition truthyOr (fallback v : value) : Prop :=
  v = fallback \/ truthy v = true.

(** A record with a service and nothing else to say *)
Definition serviceOnly : value :=
  Obj [("name", Str "Ann"); ("service", Str "AC repair"); ("notes", Str "")].

(** *** Checks over a range of numbers *)

(** [f] holds of [start], [start + 1], ..., [count] numbers in all *)
Fixpoint allFrom (f : Z -> bool) (start : Z) (count : nat) : bool :=
  match count with
  | O => true
  | S c => f start && allFrom f (start + 1) c
  end.

(** The civil date of day [d] is a legal date of 1970..2099 whose day
    number is [d] *)
Definition civilReadsBack (d : Z) : bool :=
  let '(y, m, dd) := Calendar.civilFromDays d in
  (Calendar.daysFromCivil y m dd =? d) && (1 <=? m) && (m <=? 12) && (1 <=? dd)
  && (dd <=? Calendar.daysInMonth y m) && (1970 <=? y) && (y <=? 2099).

(** The number of days from 1970-01-01 to 2099-12-31 *)
Definition modernDays : Z := 47482.

(** [pad2] prints [n] as two digits that read back as [n] *)
Definition twoReadBack (n : Z) : bool :=
  match pad2 (Num n) with
  | String c0 (String c1 EmptyString) =>
      match Calendar.digitsFrom (String c0 (String c1 "")) 0 with
      | Some k => k =? n
      | None => false
      end
  | _ => false
  end.

(** [String(n)] is four digits that read back as [n] *)
Definition fourReadBack (n : Z) : bool :=
  match numberToString (Num n) with
  | String c0 (String c1 (String c2 (String c3 EmptyString))) =>
      match Calendar.digitsFrom
              (String c0 (String c1 (String c2 (String c3 "")))) 0 with
      | Some k => k =? n
      | None => false
      end
  | _ => false
  end.

(** *** The parts of a formatted date *)

(** The value of the last part of type [ty], through [f]; [undefined]
    when there is none *)
Definition lastPart (f : string -> string) (ty : string)
  (parts : list (string * string)) (start : value) : value :=
  List.fold_left (fun acc p => if String.eqb p.1 ty then Str (f p.2) else acc)
    parts start.

Definition same (s : string) : string := s.

(** The cell [formatDateAny] shows for the parts [Intl] gives *)
Definition shownParts (parts : list (string * string)) : string :=
  toString (lastPart same "month" parts Undefined) ++ "-"
  ++ toString (lastPart same "day" parts Undefined) ++ " "
  ++ toString (lastPart same "hour" parts Undefined) ++ ":"
  ++ toString (lastPart same "minute" parts Undefined)
  ++ toString (lastPart toLowerCase "dayPeriod" parts Undefined).

Definition notLiteral (p : string * string) : bool :=
  negb (String.eqb p.1 "literal").

(** The parts of a host that separates the time from "PM" by a narrow
    space and has nothing to say of the day period's case *)
Definition sampleParts : list (string * string) :=
  [("month", "3"); ("literal", "/"); ("day", "14"); ("literal", ", ");
   ("hour", "2"); ("literal", ":"); ("minute", "05"); ("literal", "~");
   ("dayPeriod", "PM")].

End Props.

(* ===================================================================== *)
(** ** Properties *)
(* ===================================================================== *)

Import JS Eff Eff.Notations Calendar Card Props.

(** *** Invariants through the handler combinators *)

Section Keeps.
Context {S E : Type} (I : S -> Prop).

Lemma keeps_ret {A} (a : A) : keeps (E := E) I (ret a).
Proof. intros s Hs. exact Hs. Qed.

Lemma keeps_throw {A} (e : error) : keeps (E := E) (A := A) I (throw e).
Proof. intros s Hs. exact Hs. Qed.

Lemma keeps_emit (ev : E) : keeps I (emit ev).
Proof. intros s Hs. exact Hs. Qed.

Lemma keeps_gets {A} (f : S -> A) : keeps (E := E) I (gets f).
Proof. intros s Hs. exact Hs. Qed.

Lemma keeps_modify (f : S -> S) :
  (forall s, I s -> I (f s)) -> keeps (E := E) I (modify f).
Proof. intros Hf s Hs. apply Hf, Hs. Qed.

Lemma keeps_bind {A B} (c : M S E A) (k : A -> M S E B) :
  keeps I c -> (forall a, keeps I (k a)) -> keeps I (bind c k).
Proof.
  intros Hc Hk s Hs. specialize (Hc s Hs).
  unfold bind, after in *. destruct (c s) as [[[a|e] s1] w1]; simpl in *.
  - specialize (Hk a s1 Hc). unfold after in Hk.
    destruct (k a s1) as [[r s2] w2]. exact Hk.
  - exact Hc.
Qed.

Lemma keeps_tryCatch {A} (body : M S E A) (handler : error -> M S E A) :
  keeps I body -> (forall e, keeps I (handler e)) ->
  keeps I (tryCatch body handler).
Proof.
  intros Hb Hh s Hs. specialize (Hb s Hs).
  unfold tryCatch, after in *. destruct (body s) as [[[a|e] s1] w1]; simpl in *.
  - exact Hb.
  - specialize (Hh e s1 Hb). unfold after in Hh.
    destruct (handler e s1) as [[r s2] w2]. exact Hh.
Qed.

Lemma keeps_finally {A} (body : M S E A) (fin : M S E unit) :
  keeps I body -> keeps I fin -> keeps I (finally body fin).
Proof.
  intros Hb Hf s Hs. specialize (Hb s Hs).
  unfold finally, after in *. destruct (body s) as [[r s1] w1]; simpl in *.
  specialize (Hf s1 Hb). unfold after in Hf.
  destruct (fin s1) as [[[u|e] s2] w2]; exact Hf.
Qed.

Lemma keeps_when (b : bool) (c : M S E unit) :
  keeps I c -> keeps I (when b c).
Proof. intros Hc. destruct b; [exact Hc | apply keeps_ret]. Qed.

Lemma keeps_orTypeError {A} (o : option A) :
  keeps (E := E) I (orTypeError o).
Proof. destruct o; [apply keeps_ret | apply keeps_throw]. Qed.

Lemma keeps_mapFrom {A B} (f : A -> nat -> M S E B) (l : list A) :
  (forall x i, keeps I (f x i)) -> forall i, keeps I (mapFrom f i l).
Proof.
  intros Hf. induction l as [|x l IH]; intros i; simpl.
  - apply keeps_ret.
  - apply keeps_bind; [apply Hf|]. intros y.
    apply keeps_bind; [apply IH|]. intros ys. apply keeps_ret.
Qed.
End Keeps.

(** Neither handler that talks to the network writes a control's cell. *)
Lemma loadBookings_keeps_view (P : ViewState -> Prop) (reply : Reply) :
  keeps (fun s => P (view s)) (loadBookings reply).
Proof.
  unfold loadBookings.
  apply keeps_bind; [apply keeps_modify; auto|]. intros _.
  apply keeps_finally; [|apply keeps_modify; auto].
  apply keeps_tryCatch.
  - apply keeps_bind.
    { unfold apiGet, fetch. apply keeps_bind; [apply keeps_emit|].
      intros _. destruct reply; [apply keeps_throw | apply keeps_ret]. }
    intros res. apply keeps_bind; [apply keeps_when, keeps_throw|]. intros _.
    apply keeps_bind.
    { unfold resJson. destruct (json res); [apply keeps_throw | apply keeps_ret]. }
    intros data. apply keeps_bind; [|intros l; apply keeps_modify; auto].
    unfold normalizeAll. destruct (itemsOf data); try apply keeps_throw.
    apply keeps_mapFrom. intros x i. apply keeps_orTypeError.
  - intros e. repeat (apply keeps_bind; [apply keeps_emit|]; intros _).
    apply keeps_modify; auto.
Qed.

Lemma handleAdd_keeps_view (P : ViewState -> Prop) h (post list : Reply) :
  keeps (fun s => P (view s)) (handleAdd h post list).
Proof.
  unfold handleAdd. apply keeps_bind; [apply keeps_gets|]. intros f.
  destruct (_ || _); [apply keeps_emit|].
  apply keeps_bind; [apply keeps_modify; auto|]. intros _.
  apply keeps_finally; [|apply keeps_modify; auto].
  apply keeps_tryCatch; [|intros e; apply keeps_emit].
  apply keeps_bind.
  { unfold apiJson, fetch. apply keeps_bind.
    - apply keeps_bind; [apply keeps_emit|]. intros _.
      destruct post; [apply keeps_throw | apply keeps_ret].
    - intros res. destruct (negb (ok res)); [apply keeps_throw|].
      unfold resJson. destruct (json res); [apply keeps_throw | apply keeps_ret]. }
  intros _. apply keeps_bind; [apply keeps_modify; auto|]. intros _.
  apply loadBookings_keeps_view.
Qed.

Lemma control_exclusive (c : Control) (v : ViewState) :
  exclusive v -> exclusive (control c v).
Proof.
  unfold exclusive. destruct c as [x|b|b|b|k|x]; simpl; auto;
    destruct b; simpl; auto using andb_false_r.
Qed.

Lemma step_exclusive h s s' :
  step h s s' -> exclusive (view s) -> exclusive (view s').
Proof.
  intros Hstep Hs. destruct Hstep as [c s|f s|reply s r s' w Hrun
    |post list s r s' w Hrun|hit s|hit s]; simpl; auto.
  - apply control_exclusive, Hs.
  - pose proof (loadBookings_keeps_view exclusive reply s Hs) as H.
    unfold after in H. rewrite Hrun in H. exact H.
  - pose proof (handleAdd_keeps_view exclusive h post list s Hs) as H.
    unfold after in H. rewrite Hrun in H. exact H.
Qed.

(** C5. In every state the card can reach, "Completed only" and "Incomplete
    only" are not both on: the handler that checks one box unchecks the
    other, and checking "Completed only" and then "Incomplete only" leaves
    "Completed only" off. *)
Theorem completed_incomplete_exclusive h (s : State) :
  reachable h s ->
  exclusive (view s)
  /\ (forall v, showIncompleteOnly (control (CheckCompletedOnly true) v) = false)
  /\ (forall v, showCompletedOnly (control (CheckIncompleteOnly true) v) = false)
  /\ (forall v,
        let v' := control (CheckIncompleteOnly true)
                    (control (CheckCompletedOnly true) v) in
        showCompletedOnly v' = false /\ showIncompleteOnly v' = true).
Proof.
  intros Hreach. split; [|repeat split].
  induction Hreach as [|s s' _ IH Hstep].
  - reflexivity.
  - eapply step_exclusive; eauto.
Qed.

Lemma completed_incomplete_exclusive_witness :
  reachable Eastern.host bothClicked /\ exclusive (view bothClicked).
Proof.
  assert (H : reachable Eastern.host bothClicked).
  { eapply reachable_step.
    - eapply reachable_step; [apply reachable_initial|].
      apply (step_control _ (CheckCompletedOnly true)).
    - apply (step_control _ (CheckIncompleteOnly true)). }
  split; [exact H | apply (completed_incomplete_exclusive _ _ H)].
Defined.

(** *** Creating without a name or without a time *)

(** C7. When the name or the start time of the form is empty, [handleAdd]
    ends with the one alert "Name and time required": no request is sent
    and no cell of the state changes. *)
Theorem handleAdd_requires_name_and_time h (post list : Reply) (s : State) :
  Form.name (form s) = "" \/ Form.startsAt (form s) = "" ->
  handleAdd h post list s = (Done tt, s, [Alert "Name and time required"])
  /\ fetches (trace (handleAdd h post list s)) = []
  /\ after (handleAdd h post list s) = s.
Proof.
  intros Hempty.
  assert (Hrun : handleAdd h post list s
                 = (Done tt, s, [Alert "Name and time required"])).
  { unfold handleAdd, bind, gets, emit.
    destruct Hempty as [-> | ->]; simpl; [reflexivity|].
    rewrite orb_true_r. reflexivity. }
  rewrite Hrun. repeat split.
Qed.

Lemma handleAdd_requires_name_and_time_witness :
  handleAdd Eastern.host offline offline (setForm namelessForm initial)
  = (Done tt, setForm namelessForm initial, [Alert "Name and time required"]).
Proof.
  apply (handleAdd_requires_name_and_time Eastern.host offline offline
           (setForm namelessForm initial)).
  left. reflexivity.
Defined.

(** *** A load that fails *)

Lemma loadBookings_failure (reply : Reply) (s : State) :
  loadFails reply ->
  exists e,
    loadBookings reply s
    = (Done tt, setLoading false (setRows [] (setLoading true s)),
       [Fetch "GET" LIST_PATH None; ConsoleError e;
        Alert "Could not load bookings"]).
Proof.
  intros Hfail. destruct reply as [e|res]; simpl in Hfail.
  - exists e. reflexivity.
  - exists (Error (httpStatus res)).
    unfold loadBookings, bind, finally, tryCatch, apiGet, fetch, when, modify,
      emit, throw, ret. simpl. rewrite Hfail. reflexivity.
Qed.

(** C1, as the code has it. When the network call of [loadBookings] fails
    (the fetch rejects or the response is not 2xx), the list is replaced by
    the empty list, exactly one alert is raised, the loading flag is
    cleared, nothing is thrown, and the other cells are as before. *)
Theorem loadBookings_failure_clears (reply : Reply) (s : State) :
  loadFails reply ->
  let run := loadBookings reply s in
  rows (after run) = []
  /\ alerts (trace run) = [Alert "Could not load bookings"]
  /\ loading (after run) = false
  /\ result run = Done tt
  /\ view (after run) = view s
  /\ form (after run) = form s
  /\ adding (after run) = adding s.
Proof.
  intros Hfail run. destruct (loadBookings_failure reply s Hfail) as [e He].
  subst run. rewrite He. repeat split.
Qed.

Lemma loadBookings_failure_clears_witness :
  rows (after (loadBookings serverError (setRows [jane] initial))) = []
  /\ alerts (trace (loadBookings serverError (setRows [jane] initial)))
     = [Alert "Could not load bookings"].
Proof.
  destruct (loadBookings_failure_clears serverError (setRows [jane] initial))
    as (Hrows & Halerts & _).
  - reflexivity.
  - split; [exact Hrows | exact Halerts].
Defined.

(** C1 as stated does not hold: a failed load does not leave a populated
    list as it was. *)
Lemma loadBookings_failure_loses_list :
  ~ (forall (reply : Reply) (s : State),
       loadFails reply -> rows (after (loadBookings reply s)) = rows s).
Proof.
  intros H. specialize (H offline (setRows [jane] initial) I).
  discriminate H.
Qed.

(** *** Strings *)

Lemma append_length (a b : string) :
  String.length (a ++ b) = (String.length a + String.length b)%nat.
Proof. induction a as [|c a IH]; simpl; [reflexivity | now rewrite IH]. Qed.

Lemma append_nonempty_r (a b : string) : b <> "" -> a ++ b <> "".
Proof. intros Hb. destruct a; simpl; [exact Hb | discriminate]. Qed.

(** Two ways to cut one string: the shorter tail is a tail of the longer *)
Lemma append_tail (a b p z : string) :
  a ++ b = p ++ z -> (String.length z <= String.length b)%nat ->
  exists c, b = c ++ z.
Proof.
  revert p. induction a as [|x a IH]; intros p Heq Hlen.
  - exists p. exact Heq.
  - destruct p as [|y p].
    + change (String x (a ++ b) = z) in Heq. subst z.
      change (S (String.length (a ++ b)) <= String.length b)%nat in Hlen.
      rewrite append_length in Hlen. lia.
    + change (String x (a ++ b) = String y (p ++ z)) in Heq.
      injection Heq as _ Heq. eapply IH; eauto.
Qed.

(** *** Formatting for display *)

Lemma isBlank_dash (a b : string) : isBlank (a ++ String "-" b) = false.
Proof.
  induction a as [|c a IH]; [reflexivity|].
  change (isSpace c && isBlank (a ++ String "-" b) = false).
  rewrite IH. apply andb_false_r.
Qed.

(** C8. A string [new Date] cannot read is shown as it is; a string that
    is not empty is never shown as an empty cell, and one that is not blank
    is never shown as a blank one. [formatDateAny] is a total function: a
    throw of [Intl] is caught inside it. *)
Theorem formatDateAny_unparseable h (s : string) :
  (Date.parse h s = NaN -> formatDateAny h (Str s) = s)
  /\ (s <> "" -> formatDateAny h (Str s) <> "")
  /\ (isBlank s = false -> isBlank (formatDateAny h (Str s)) = false).
Proof.
  unfold formatDateAny. cbn [truthy Date.make toString].
  destruct (String.eqb_spec s "") as [->|Hne]; cbn [negb].
  - repeat split; [congruence | discriminate].
  - split; [|split].
    + intros ->. reflexivity.
    + intros _. destruct (Date.parse h s) as [|t]; [exact Hne|].
      destruct (Host.formatToParts h t) as [parts|]; [|exact Hne].
      apply append_nonempty_r. discriminate.
    + intros Hs. destruct (Date.parse h s) as [|t]; [exact Hs|].
      destruct (Host.formatToParts h t) as [parts|]; [|exact Hs].
      apply isBlank_dash.
Qed.

Lemma formatDateAny_unparseable_witness :
  formatDateAny Eastern.host (Str "next tuesday") = "next tuesday"
  /\ formatDateAny Eastern.host (Str "next tuesday") <> ""
  /\ isBlank (formatDateAny Eastern.host (Str "next tuesday")) = false.
Proof.
  destruct (formatDateAny_unparseable Eastern.host "next tuesday")
    as (H1 & H2 & H3).
  split; [apply H1; reflexivity|].
  split; [apply H2; discriminate | apply H3; reflexivity].
Defined.

(** A readable timestamp is shown in New York time as month-day and a
    12-hour clock. *)
Example formatDateAny_new_york :
  formatDateAny Eastern.host (Str "2024-03-14T18:05:00Z") = "3-14 2:05pm".
Proof. vm_compute. reflexivity. Qed.

(** *** The offset label *)

Lemma dayOffsets_read_back : forallb suffixReadsBack dayOffsets = true.
Proof. vm_compute. reflexivity. Qed.

Lemma offsetSuffix_reads_back (offMin : Z) :
  Z.abs offMin < 1440 ->
  offsetOf (offsetSuffix (Num offMin)) = Some (- offMin).
Proof.
  intros Hoff.
  assert (Hin : In offMin dayOffsets).
  { unfold dayOffsets. apply in_map_iff.
    exists (Z.to_nat (offMin + 1439)). split; [lia|].
    apply in_seq. lia. }
  pose proof (proj1 (forallb_forall _ _) dayOffsets_read_back _ Hin) as H.
  unfold suffixReadsBack in H.
  destruct (offsetOf (offsetSuffix (Num offMin))) as [east|]; [|discriminate].
  apply Z.eqb_eq in H. now subst.
Qed.

(** C3. For a wall-clock string [w] that [new Date] reads as the instant
    [t], in a zone less than a day from UTC, [localWallToZonedIso w] is [w]
    itself (with ":00" appended when it has 16 characters, untouched when it
    has 19) followed by a well-formed [+HH:MM] / [-HH:MM] suffix, and that
    suffix reads back as the zone's UTC offset at [t]. *)
Theorem localWallToZonedIso_labels h (w : string) (t : Z) :
  Date.parse h (withSeconds w) = Num t ->
  Z.abs (Host.tzOffset h t) < 1440 ->
  exists suffix,
    localWallToZonedIso h w = withSeconds w ++ suffix
    /\ isOffsetSuffix suffix = true
    /\ offsetOf suffix = Some (- Host.tzOffset h t)
    /\ (String.length w = 16%nat -> withSeconds w = w ++ ":00")
    /\ (String.length w = 19%nat -> withSeconds w = w).
Proof.
  intros Hparse Hoff.
  exists (offsetSuffix (Num (Host.tzOffset h t))).
  pose proof (offsetSuffix_reads_back _ Hoff) as Hback.
  repeat split.
  - unfold localWallToZonedIso. simpl. rewrite Hparse. reflexivity.
  - unfold isOffsetSuffix. now rewrite Hback.
  - exact Hback.
  - intros Hlen. unfold withSeconds. now rewrite Hlen.
  - intros Hlen. unfold withSeconds. now rewrite Hlen.
Qed.

Lemma localWallToZonedIso_labels_witness :
  exists suffix,
    localWallToZonedIso Eastern.host "2024-06-01T10:00"
    = "2024-06-01T10:00:00" ++ suffix
    /\ offsetOf suffix = Some (- 240).
Proof.
  destruct (localWallToZonedIso_labels Eastern.host "2024-06-01T10:00"
              1717250400000) as (suffix & Hrun & _ & Hoff & _).
  - reflexivity.
  - vm_compute. reflexivity.
  - exists suffix. split; [exact Hrun | exact Hoff].
Defined.

(** C10. [localWallToZonedIso] returns a string for every string: the
    input, with ":00" appended when it has 16 characters and as it is
    otherwise, followed by a suffix. When [new Date] cannot read the padded
    input the suffix is "+NaN:NaN": a reading of 16 characters [w] gives
    [w], ":00" and "+NaN:NaN", any other gives [w] and "+NaN:NaN". That
    suffix is no offset, and no tail of the result is one. *)
Theorem localWallToZonedIso_unparseable h (w : string) :
  (exists suffix,
     localWallToZonedIso h w
     = (if (String.length w =? 16)%nat then w ++ ":00" else w) ++ suffix)
  /\ (Date.parse h (if (String.length w =? 16)%nat then w ++ ":00" else w) = NaN ->
      (String.length w = 16%nat ->
       localWallToZonedIso h w = (w ++ ":00") ++ "+NaN:NaN")
      /\ (String.length w <> 16%nat ->
          localWallToZonedIso h w = w ++ "+NaN:NaN")
      /\ isOffsetSuffix "+NaN:NaN" = false
      /\ forall p z, localWallToZonedIso h w = p ++ z -> isOffsetSuffix z = false).
Proof.
  split; [eexists; reflexivity|].
  intros Hparse.
  assert (Hrun : localWallToZonedIso h w
                 = (if (String.length w =? 16)%nat then w ++ ":00" else w)
                   ++ "+NaN:NaN").
  { unfold localWallToZonedIso, withSeconds. simpl. rewrite Hparse. reflexivity. }
  split; [|split; [|split; [reflexivity|]]].
  - intros Hlen. rewrite Hrun, Hlen. reflexivity.
  - intros Hlen. rewrite Hrun.
    destruct (Nat.eqb_spec (String.length w) 16); [contradiction | reflexivity].
  - intros p z Hcut. rewrite Hrun in Hcut.
    destruct (isOffsetSuffix z) eqn:Hz; [exfalso | reflexivity].
    assert (Hlen : String.length z = 6%nat).
    { unfold isOffsetSuffix, offsetOf in Hz.
      destruct (Nat.eqb_spec (String.length z) 6); [assumption | discriminate]. }
    destruct (append_tail _ _ _ _ Hcut) as [c Hc]; [rewrite Hlen; simpl; lia|].
    assert (Hclen : String.length c = 2%nat).
    { apply (f_equal String.length) in Hc. rewrite append_length, Hlen in Hc.
      simpl in Hc. lia. }
    destruct c as [|c1 [|c2 [|c3 c]]]; try discriminate Hclen.
    change ("+NaN:NaN" = String c1 (String c2 z)) in Hc.
    injection Hc as _ _ Hc. subst z. discriminate Hz.
Qed.

Lemma localWallToZonedIso_unparseable_witness :
  localWallToZonedIso Eastern.host "2024-13-01T10:00"
  = "2024-13-01T10:00:00+NaN:NaN"
  /\ isOffsetSuffix "+NaN:NaN" = false.
Proof.
  destruct (localWallToZonedIso_unparseable Eastern.host "2024-13-01T10:00")
    as [_ H].
  destruct H as (Hpadded & _ & Hno & _); [reflexivity|].
  split; [apply Hpadded; reflexivity | exact Hno].
Defined.

(** A reading without its date is returned as it is, with the same suffix. *)
Example localWallToZonedIso_words :
  localWallToZonedIso Eastern.host "tomorrow at ten" = "tomorrow at ten+NaN:NaN".
Proof. reflexivity. Qed.

(** *** The end of a new booking *)

(** C6, at 1:30 of the repeated hour. [handleAdd] adds 60 minutes to the
    start instant, prints the end as a wall-clock reading and labels that
    reading again: the reading "01:30" is taken for its first occurrence, so
    the posted end is the very instant of the posted start, not an hour
    later. *)
Theorem handleAdd_repeated_hour :
  let h := Eastern.host in
  let run := handleAdd h accepted accepted (setForm repeatedHourForm initial) in
  fetches (trace run)
  = [Fetch "POST" CREATE_PATH
       (Some (Obj [("start", Str "2024-11-03T01:30:00-04:00");
                   ("end", Str "2024-11-03T01:30:00-04:00");
                   ("name", Str "Jane"); ("email", Null);
                   ("phone", Null); ("notes", Null)]));
     Fetch "GET" LIST_PATH None]
  /\ sub (Date.parse h "2024-11-03T01:30:00-04:00")
         (Date.parse h "2024-11-03T01:30:00-04:00") = Num 0
  /\ toWall h (add (Date.parse h "2024-11-03T01:30:00") (Num (60 * 60 * 1000)))
     = "2024-11-03T01:30:00"
  /\ Date.getTimezoneOffset h
       (add (Date.parse h "2024-11-03T01:30:00") (Num (60 * 60 * 1000)))
     = Num 300.
Proof. vm_compute. repeat split. Qed.

(** Away from a transition the posted end is the hour after the start. *)
Example handleAdd_ordinary_hour :
  let h := Eastern.host in
  createBody h (Form.Build_t "Jane" "" "" "2024-06-01T23:30" "")
  = Obj [("start", Str "2024-06-01T23:30:00-04:00");
         ("end", Str "2024-06-02T00:30:00-04:00");
         ("name", Str "Jane"); ("email", Null);
         ("phone", Null); ("notes", Null)]
  /\ sub (Date.parse h "2024-06-02T00:30:00-04:00")
         (Date.parse h "2024-06-01T23:30:00-04:00") = Num (60 * 60 * 1000).
Proof. vm_compute. split; reflexivity. Qed.

(** At 2:30 of the skipped hour the posted start is labelled with the
    offset after the transition, an hour before the instant the end is
    computed from: the posted end is 120 minutes after the posted start. *)
Lemma handleAdd_skipped_hour :
  let h := Eastern.host in
  createBody h skippedHourForm
  = Obj [("start", Str "2024-03-10T02:30:00-04:00");
         ("end", Str "2024-03-10T04:30:00-04:00");
         ("name", Str "Jane"); ("email", Null);
         ("phone", Null); ("notes", Null)]
  /\ sub (Date.parse h "2024-03-10T04:30:00-04:00")
         (Date.parse h "2024-03-10T02:30:00-04:00") = Num (120 * 60 * 1000).
Proof. vm_compute. split; reflexivity. Qed.

(** *** Row identifiers *)








Lemma stringable_or (a b : value) :
  stringable a = true -> stringable b = true -> stringable (or a b) = true.
Proof. intros Ha Hb. unfold or. now destruct (truthy a). Qed.

(** A printable record has a row at every index *)
Lemma normalizeRow_printable (r : value) (i : nat) :
  printable r -> exists b, normalizeRow r i = Some b.
Proof.
  intros (Hr & Hname & Hstart & Hservice & Haddress).
  unfold normalizeRow. rewrite Hr. fold (startOf r).
  assert (Hjoin : joinThrows r = false).
  { unfold joinThrows, noteParts. cbn [List.filter].
    destruct (truthy (prop r "service")), (truthy (prop r "address"));
      cbn [List.forallb]; rewrite ?Hservice, ?Haddress; cbn;
      now rewrite !andb_false_r. }
  assert (Hkey : keyThrows r (startOf r) i = false).
  { unfold keyThrows.
    rewrite (stringable_or _ (Str "row") Hname eq_refl).
    rewrite (stringable_or _ (Number (Num (Z.of_nat i))) Hstart eq_refl).
    cbn. now rewrite !andb_false_r. }
  rewrite Hjoin, Hkey. cbn. eexists. reflexivity.
Qed.

(** [items.map(normalizeRow)] row by row *)
Lemma mapFrom_normalizeRow (items : list value) :
  forall (k : nat) (s : State) (l : list Booking),
  result (mapFrom (E := Event) (fun r i => orTypeError (normalizeRow r i))
            k items s) = Done l ->
  forall (i : nat) (r : value),
    items !! i = Some r ->
    exists b, l !! i = Some b /\ normalizeRow r (k + i) = Some b.
Proof.
  induction items as [|x items IH]; intros k s l Hrun i r Hi.
  - destruct i; discriminate Hi.
  - cbn [mapFrom] in Hrun. unfold bind at 1 in Hrun.
    destruct (normalizeRow x k) as [b0|] eqn:Hx; cbn in Hrun; [|discriminate].
    unfold bind at 1 in Hrun.
    destruct (mapFrom _ (S k) items s) as [[[l'|e] s'] w'] eqn:Hrest;
      cbn in Hrun; [|discriminate].
    injection Hrun as <-.
    destruct i as [|i]; cbn in Hi.
    + injection Hi as <-. exists b0. rewrite Nat.add_0_r. split; [reflexivity | exact Hx].
    + destruct (IH (S k) s l') with (i := i) (r := r) as (b & Hb & Hn).
      * unfold result. now rewrite Hrest.
      * exact Hi.
      * exists b. split; [exact Hb|]. now rewrite Nat.add_succ_r.
Qed.

Lemma mapFrom_normalizeRow_total (items : list value) :
  Forall printable items ->
  forall (k : nat) (s : State),
  exists l, mapFrom (E := Event) (fun r i => orTypeError (normalizeRow r i))
              k items s
            = (Done l, s, []).
Proof.
  induction 1 as [|x items Hx _ IH]; intros k s.
  - exists []. reflexivity.
  - destruct (IH (S k) s) as [l Hl]. cbn [mapFrom]. unfold bind at 1.
    destruct (normalizeRow_printable x k Hx) as [b Hb]. rewrite Hb. cbn.
    unfold bind at 1. rewrite Hl. cbn. eexists. reflexivity.
Qed.

Lemma mapFrom_normalizeRow_length (items : list value) :
  forall (k : nat) (s : State) (l : list Booking),
  result (mapFrom (E := Event) (fun r i => orTypeError (normalizeRow r i))
            k items s) = Done l ->
  List.length l = List.length items.
Proof.
  induction items as [|x items IH]; intros k s l Hrun.
  - injection Hrun as <-. reflexivity.
  - cbn [mapFrom] in Hrun. unfold bind at 1 in Hrun.
    destruct (normalizeRow x k) as [b0|]; cbn in Hrun; [|discriminate].
    unfold bind at 1 in Hrun.
    destruct (mapFrom _ (S k) items s) as [[[l'|e] s'] w'] eqn:Hrest;
      cbn in Hrun; [|discriminate].
    injection Hrun as <-. cbn. f_equal. apply (IH (S k) s).
    unfold result. now rewrite Hrest.
Qed.



(** A name that has no string stops the whole list when the key needs it,
    and is carried along when the record has an id. *)
Example normalizeAll_unprintable :
  result (normalizeAll (Arr unprintable) initial) = Thrown TypeError
  /\ exists l, result (normalizeAll (Arr unprintableWithId) initial) = Done l
               /\ List.map id l = [Number (Num 7)].
Proof. split; [reflexivity|]. eexists. split; reflexivity. Qed.


(** *** Arrays on the heap *)

Lemma holds_subseteq σ0 σ r l : holds σ0 σ r l -> σ0 ⊆ σ.
Proof. now intros [H _]. Qed.

Lemma alloc_holds (σ0 σ : Heap) (l : list Booking) :
  σ0 ⊆ σ ->
  exists r σ', alloc l σ = (Done r, σ', []) /\ holds σ0 σ' r l.
Proof.
  intros Hsub. exists (fresh (dom σ)), (<[fresh (dom σ) := l]> σ).
  assert (Hnew : σ !! fresh (dom σ) = None).
  { apply not_elem_of_dom, is_fresh. }
  split; [reflexivity|]. repeat split.
  - etrans; [exact Hsub | now apply insert_subseteq].
  - apply lookup_insert_eq.
  - eapply lookup_weaken_None; eauto.
Qed.

Lemma spread_returns (σ0 σ : Heap) (a : Ref) (l : list Booking) :
  σ0 ⊆ σ -> σ !! a = Some l -> returns σ0 (spread a) σ (Done l).
Proof.
  intros Hsub Ha. destruct (alloc_holds σ0 σ l Hsub) as (r & σ' & Hrun & Hh).
  exists r, σ'. split; [|exact Hh].
  unfold spread, bind, read. rewrite Ha, Hrun. reflexivity.
Qed.

(** A test that only looks at the row *)
Lemma filterM_ret (f : Booking -> bool) (l : list Booking) (σ : Heap) :
  filterM (E := Empty_set) (fun b => ret (f b)) l σ = (Done (List.filter f l), σ, []).
Proof.
  induction l as [|x l IH]; [reflexivity|].
  cbn [filterM List.filter]. unfold bind at 1. cbn.
  unfold bind at 1. rewrite IH. cbn. destruct (f x); reflexivity.
Qed.

Lemma filterArr_returns (σ0 σ : Heap) (a : Ref) (l : list Booking)
  (f : Booking -> bool) :
  σ0 ⊆ σ -> σ !! a = Some l ->
  returns σ0 (filterArr (fun b => ret (f b)) a) σ (Done (List.filter f l)).
Proof.
  intros Hsub Ha.
  destruct (alloc_holds σ0 σ (List.filter f l) Hsub) as (r & σ' & Hrun & Hh).
  exists r, σ'. split; [|exact Hh].
  unfold filterArr, bind, read. rewrite Ha, filterM_ret, Hrun. reflexivity.
Qed.

Lemma sortArr_returns (σ0 σ : Heap) (r : Ref) (l : list Booking) cmp :
  holds σ0 σ r l -> returns σ0 (sortArr cmp r) σ (Done (sortWith cmp l)).
Proof.
  intros (Hsub & Hr & Hnew). exists r, (<[r := sortWith cmp l]> σ).
  split.
  - unfold sortArr, bind, read, write, modify, ret. rewrite Hr. reflexivity.
  - repeat split; [now apply insert_subseteq_r | apply lookup_insert_eq | exact Hnew].
Qed.

Lemma ret_returns (σ0 σ : Heap) (r : Ref) (l : list Booking) :
  holds σ0 σ r l -> returns σ0 (ret r) σ (Done l).
Proof. intros Hh. exists r, σ. split; [reflexivity | exact Hh]. Qed.

(** Sequencing: what [k] does with the array [c] returns *)
Lemma bind_returns (σ0 σ : Heap) (c : Render Ref) (k : Ref -> Render Ref)
  (l : list Booking) (content : outcome (list Booking)) :
  returns σ0 c σ (Done l) ->
  (forall r σ', holds σ0 σ' r l -> returns σ0 (k r) σ' content) ->
  returns σ0 (bind c k) σ content.
Proof.
  intros (r & σ1 & Hc & Hh) Hk. specialize (Hk r σ1 Hh).
  destruct content as [out|e].
  - destruct Hk as (r' & σ2 & Hk & Hh'). exists r', σ2.
    split; [|exact Hh']. unfold bind. rewrite Hc, Hk. reflexivity.
  - destruct Hk as (σ2 & Hk & Hsub). exists σ2.
    split; [|exact Hsub]. unfold bind. rewrite Hc, Hk. reflexivity.
Qed.

Lemma bind_throws (σ0 σ : Heap) (c : Render Ref) (k : Ref -> Render Ref) e :
  returns σ0 c σ (Thrown e) -> returns σ0 (bind c k) σ (Thrown e).
Proof.
  intros (σ1 & Hc & Hsub). exists σ1. split; [|exact Hsub].
  unfold bind. rewrite Hc. reflexivity.
Qed.

(** The search test reads its row only *)
Lemma fieldIncludes_run (v : value) (q : string) (σ : Heap) :
  fieldIncludes v q σ = ((fieldIncludes v q ∅).1.1, σ, []).
Proof. unfold fieldIncludes, bind, orTypeError. destruct (lowerOf v); reflexivity. Qed.

Lemma orElse_run (a b : Render bool) (σ : Heap) :
  (forall σ, a σ = ((a ∅).1.1, σ, [])) ->
  (forall σ, b σ = ((b ∅).1.1, σ, [])) ->
  orElse a b σ = ((orElse a b ∅).1.1, σ, []).
Proof.
  intros Ha Hb. unfold orElse, bind. rewrite (Ha σ), (Ha ∅).
  destruct ((a ∅).1.1) as [[|]|e]; cbn; try reflexivity.
  rewrite (Hb σ), (Hb ∅). reflexivity.
Qed.

Lemma matchesSearch_run (q : string) (r : Booking) (σ : Heap) :
  matchesSearch q r σ = ((matchesSearch q r ∅).1.1, σ, []).
Proof.
  unfold matchesSearch.
  repeat (apply orElse_run; intros; try apply fieldIncludes_run).
Qed.

Lemma filterM_search_run (q : string) (l : list Booking) (σ : Heap) :
  filterM (matchesSearch q) l σ = ((filterM (matchesSearch q) l ∅).1.1, σ, []).
Proof.
  induction l as [|x l IH]; [reflexivity|].
  cbn [filterM]. unfold bind at 1 3.
  rewrite (matchesSearch_run q x σ), (matchesSearch_run q x ∅).
  destruct ((matchesSearch q x ∅).1.1) as [keep|e]; [|reflexivity].
  unfold bind at 1 2. rewrite IH.
  destruct (filterM (matchesSearch q) l ∅) as [[[kept|e] σ'] w]; reflexivity.
Qed.

Lemma filterBySearch_returns (σ0 σ : Heap) (a : Ref) (l : list Booking)
  (term : string) :
  holds σ0 σ a l ->
  returns σ0 (filterBySearch a term) σ (searchContent term l).
Proof.
  intros Hh. unfold filterBySearch, searchContent.
  destruct (String.eqb _ ""); [now apply ret_returns|].
  destruct Hh as (Hsub & Ha & _).
  assert (Hrun :
             filterArr (matchesSearch (trim (toLowerCase term))) a σ
             = match (filterM (matchesSearch (trim (toLowerCase term))) l ∅).1.1 with
               | Done kept => let '(r, σ', w) := alloc kept σ in (r, σ', w)
               | Thrown e => (Thrown e, σ, [])
               end).
  { unfold filterArr, bind, read. rewrite Ha, filterM_search_run.
    destruct ((filterM _ l ∅).1.1) as [kept|e]; [|reflexivity].
    destruct (alloc kept σ) as [[r σ'] w]. reflexivity. }
  destruct ((filterM (matchesSearch _) l ∅).1.1) as [kept|e].
  - destruct (alloc_holds σ0 σ kept Hsub) as (r & σ' & Halloc & Hh).
    exists r, σ'. rewrite Hrun, Halloc. split; [reflexivity | exact Hh].
  - exists σ. split; [exact Hrun | exact Hsub].
Qed.

Lemma filtered_returns h now v (σ0 σ : Heap) (rows : Ref) (l : list Booking) :
  σ0 ⊆ σ -> σ !! rows = Some l ->
  returns σ0 (filtered h now v rows) σ (filteredContent h now v l).
Proof.
  intros Hsub Hrows. unfold filtered, filteredContent.
  eapply bind_returns; [apply spread_returns; eassumption|]. intros r1 σ1 H1.
  pose proof (filterBySearch_returns σ0 σ1 r1 l (search v) H1) as Hsearch.
  destruct (searchContent (search v) l) as [found|e]; [|now apply bind_throws].
  eapply bind_returns; [exact Hsearch|]. intros r2 σ2 H2.
  eapply bind_returns
    with (l := if hidePast v then List.filter (notPast h now) found else found).
  { destruct (hidePast v); [|now apply ret_returns].
    apply filterArr_returns; apply H2. }
  intros r3 σ3 H3. unfold completionContent.
  destruct (showCompletedOnly v); [apply filterArr_returns; apply H3|].
  destruct (showIncompleteOnly v); [apply filterArr_returns; apply H3|].
  now apply ret_returns.
Qed.

Lemma sorted_returns h v (σ0 σ : Heap) (f : Ref) (l : list Booking) :
  σ0 ⊆ σ -> σ !! f = Some l ->
  returns σ0 (sorted h v f) σ (Done (sortedContent h v l)).
Proof.
  intros Hsub Hf. unfold sorted, sortedContent.
  eapply bind_returns; [apply spread_returns; eassumption|]. intros arr σ1 Harr.
  destruct (String.eqb (sortBy v) "upcoming"); [now apply sortArr_returns|].
  destruct (String.eqb (sortBy v) "created"); [now apply sortArr_returns|].
  now apply ret_returns.
Qed.

(** The whole render: the arrays that were there stay as they were, and
    the array returned holds [visibleContent] of the rows. *)
Lemma visible_returns h now v (σ0 σ : Heap) (rows : Ref) (l : list Booking) :
  σ0 ⊆ σ -> σ !! rows = Some l ->
  returns σ0 (visible h now v rows) σ (visibleContent h now v l).
Proof.
  intros Hsub Hrows. unfold visible, visibleContent.
  pose proof (filtered_returns h now v σ0 σ rows l Hsub Hrows) as Hf.
  destruct (filteredContent h now v l) as [kept|e]; [|now apply bind_throws].
  eapply bind_returns; [exact Hf|]. intros f σ1 (Hsub1 & Hkept & _).
  now apply sorted_returns.
Qed.

(** What [returns] says of a run, projection by projection *)
Lemma returns_run (σ0 σ : Heap) (c : Render Ref) content :
  returns σ0 c σ content ->
  σ0 ⊆ after (c σ)
  /\ shown (c σ) = match content with
                   | Done out => Done (Some out)
                   | Thrown e => Thrown e
                   end
  /\ (forall r, result (c σ) = Done r -> σ0 !! r = None).
Proof.
  destruct content as [out|e].
  - intros (r & σ' & Hrun & Hsub & Hr & Hnew). rewrite Hrun.
    unfold shown, after, result. cbn. rewrite Hr.
    repeat split; [exact Hsub|]. now intros r' [= <-].
  - intros (σ' & Hrun & Hsub). rewrite Hrun.
    repeat split; [exact Hsub|]. intros r' Hr'. discriminate Hr'.
Qed.

(** C9. A render leaves every array that was on the heap as it was, the
    array of the [rows] cell among them, returns an array that was not
    there before, and a second render right after it, over the same rows,
    view and instant, shows the same rows (or throws the same error). *)
Theorem visible_is_pure h now v (rows : Ref) (σ : Heap) (l : list Booking) :
  σ !! rows = Some l ->
  let run1 := visible h now v rows σ in
  let run2 := visible h now v rows (after run1) in
  (forall a x, σ !! a = Some x -> after run1 !! a = Some x)
  /\ after run1 !! rows = Some l
  /\ after run2 !! rows = Some l
  /\ shown run2 = shown run1
  /\ (forall r, result run1 = Done r ->
        σ !! r = None /\ is_Some (after run1 !! r)).
Proof.
  intros Hrows run1 run2.
  pose proof (visible_returns h now v σ σ rows l (reflexivity σ) Hrows) as H1.
  apply returns_run in H1 as (Hsub1 & Hshown1 & Hnew1). fold run1 in Hsub1, Hshown1, Hnew1.
  assert (Hrows1 : after run1 !! rows = Some l) by (eapply lookup_weaken; eauto).
  pose proof (visible_returns h now v (after run1) (after run1) rows l
                (reflexivity _) Hrows1) as H2.
  apply returns_run in H2 as (Hsub2 & Hshown2 & _). fold run2 in Hsub2, Hshown2.
  split; [|split; [|split; [|split]]].
  - intros a x Ha. eapply lookup_weaken; eauto.
  - exact Hrows1.
  - eapply lookup_weaken; eauto.
  - now rewrite Hshown1, Hshown2.
  - intros r Hr. split; [now apply Hnew1|].
    unfold shown in Hshown1. rewrite Hr in Hshown1.
    destruct (visibleContent h now v l); [|discriminate].
    injection Hshown1 as ->. eauto.
Qed.

Lemma visible_is_pure_witness :
  shown (visible Eastern.host midMay showAll 0%nat
           (after (visible Eastern.host midMay showAll 0%nat twoRows)))
  = shown (visible Eastern.host midMay showAll 0%nat twoRows)
  /\ after (visible Eastern.host midMay showAll 0%nat twoRows) !! 0%nat
     = Some [jane; bob].
Proof.
  destruct (visible_is_pure Eastern.host midMay showAll 0%nat twoRows [jane; bob])
    as (_ & Hrows & _ & Hsame & _).
  - reflexivity.
  - split; [exact Hsame | exact Hrows].
Defined.

(** With "Hide past" unchecked and the rows sorted by start, Bob (1 May)
    is shown before Jane (1 June). *)
Example visible_bob_then_jane :
  shown (visible Eastern.host midMay showAll 0%nat twoRows)
  = Done (Some [bob; jane]).
Proof. vm_compute. reflexivity. Qed.

(** *** Hiding the past *)

Lemma insertBy_In cmp (x b : Booking) (l : list Booking) :
  In b (insertBy cmp x l) <-> b = x \/ In b l.
Proof.
  induction l as [|y l IH]; cbn.
  - intuition.
  - destruct (gt0 (cmp x y)); cbn; rewrite ?IH; intuition.
Qed.

Lemma sortWith_In cmp (b : Booking) (l : list Booking) :
  In b (sortWith cmp l) <-> In b l.
Proof.
  unfold sortWith. induction l as [|x l IH]; cbn; [reflexivity|].
  rewrite insertBy_In, IH. intuition.
Qed.

Lemma sortedContent_In h v (b : Booking) (l : list Booking) :
  In b (sortedContent h v l) <-> In b l.
Proof.
  unfold sortedContent.
  destruct (String.eqb (sortBy v) "upcoming"); [apply sortWith_In|].
  destruct (String.eqb (sortBy v) "created"); [apply sortWith_In|reflexivity].
Qed.









(** With "Hide past" checked at noon of 15 May, Bob (1 May) is not shown. *)
Example visible_drops_bob :
  shown (visible Eastern.host midMay initialView 0%nat twoRows)
  = Done (Some [jane]).
Proof. vm_compute. reflexivity. Qed.

(* ===================================================================== *)
(** ** Further properties of the card *)
(* ===================================================================== *)

(** *** Completing and deleting a row *)

Lemma request_run (method path : string) (reply : Reply) (s : State) :
  request method path reply s
  = (match replyError reply with Some e => Thrown e | None => Done tt end,
     s, [Plain (Fetch method path None)]).
Proof.
  unfold request, replyError, bind, emit, throw, ret.
  destruct reply as [e|res]; cbn; [reflexivity|].
  destruct (ok res); reflexivity.
Qed.

Lemma replyError_fails (reply : Reply) :
  loadFails reply <-> exists e, replyError reply = Some e.
Proof.
  destruct reply as [e|res]; cbn.
  - split; eauto.
  - destruct (ok res); split; try discriminate; eauto.
    intros [e He]. discriminate He.
Qed.

Lemma strictEquals_eq (v : value) (k : Key) :
  strictEquals v k = true -> v = keyValue k.
Proof.
  destruct v as [| |a|[|x]|a|l|p], k as [b|[|y]|b]; cbn; try discriminate.
  - intros H. apply Bool.eqb_prop in H. now subst.
  - intros H. apply Z.eqb_eq in H. now subst.
  - intros H. apply String.eqb_eq in H. now subst.
Qed.

(** A confirmed completion, by what the request comes to *)
Lemma completeBooking_run (id : Key) (reply : Reply) (s : State) :
  completeBooking id true reply s
  = let sent := [Confirm (completePrompt id);
                 Plain (Fetch "POST"
                          ("/bookings/" ++ toString (keyValue id) ++ "/complete")
                          None)] in
    match replyError reply with
    | None =>
        (Done tt,
         setRows (List.map (fun b => if strictEquals (Card.id b) id
                                     then markCompleted b else b) (rows s)) s,
         sent)
    | Some e =>
        (Done tt, s,
         (sent ++ [Plain (Alert ("Complete failed: " ++ describe e))])%list)
    end.
Proof.
  unfold completeBooking, tryCatch, bind, emit. cbn [negb].
  rewrite request_run. destruct (replyError reply); reflexivity.
Qed.

(** X1. A completion the user declines, or whose request fails, changes no
    cell of the state and throws nothing: declined, it sends no request;
    failed, it raises the one alert "Complete failed: ..." with the error's
    text. *)
Theorem completeBooking_keeps_state (id : Key) (confirmed : bool)
  (reply : Reply) (s : State) :
  confirmed = false \/ loadFails reply ->
  let run := completeBooking id confirmed reply s in
  result run = Done tt
  /\ after run = s
  /\ (confirmed = false -> trace run = [Confirm (completePrompt id)])
  /\ (confirmed = true ->
      exists e, replyError reply = Some e
        /\ dialogAlerts (trace run)
           = [Plain (Alert ("Complete failed: " ++ describe e))]).
Proof.
  intros Hwhy run. subst run. destruct confirmed.
  - destruct Hwhy as [Hno|Hfail]; [discriminate|].
    apply replyError_fails in Hfail as [e He].
    rewrite completeBooking_run, He.
    split; [reflexivity|]. split; [reflexivity|].
    split; [intros Hno; discriminate Hno|].
    intros _. exists e. split; reflexivity.
  - split; [reflexivity|]. split; [reflexivity|].
    split; [reflexivity|]. intros Hyes. discriminate Hyes.
Qed.

Lemma completeBooking_keeps_state_witness :
  after (completeBooking (KeyNumber (Num 1)) true serverError threeRows)
  = threeRows.
Proof.
  destruct (completeBooking_keeps_state (KeyNumber (Num 1)) true serverError
              threeRows) as (_ & Hsame & _).
  - right. reflexivity.
  - exact Hsame.
Defined.

(** X2. A completion that the user confirms and the server accepts marks
    every row with the given id completed, in place: the rows keep their
    number, their order and their ids, a row with another id is left as it
    was, no row loses its mark, and nothing else of the state changes. *)
Theorem completeBooking_marks (id : Key) (reply : Reply) (s : State) :
  replyError reply = None ->
  let run := completeBooking id true reply s in
  let rows' := rows (after run) in
  result run = Done tt
  /\ dialogAlerts (trace run) = []
  /\ List.map Card.id rows' = List.map Card.id (rows s)
  /\ (forall b, In b rows' ->
        strictEquals (Card.id b) id = true -> completed b = true)
  /\ (forall i b, rows s !! i = Some b ->
        strictEquals (Card.id b) id = false -> rows' !! i = Some b)
  /\ (forall i b, rows s !! i = Some b -> completed b = true ->
        exists b', rows' !! i = Some b' /\ completed b' = true)
  /\ (loading (after run), view (after run), form (after run), adding (after run))
     = (loading s, view s, form s, adding s).
Proof.
  intros Hok run rows'. subst rows' run.
  rewrite completeBooking_run, Hok.
  unfold result, after, trace. cbn [fst snd rows setRows].
  split; [reflexivity|]. split; [reflexivity|].
  split; [|split; [|split; [|split; [|reflexivity]]]].
  - rewrite List.map_map. apply List.map_ext. intros b.
    destruct (strictEquals (Card.id b) id); reflexivity.
  - intros b Hb Hid. apply in_map_iff in Hb as (b0 & <- & _).
    destruct (strictEquals (Card.id b0) id) eqn:H0; [reflexivity|].
    rewrite H0 in Hid. discriminate Hid.
  - intros i b Hi Hid. rewrite list_lookup_fmap, Hi. cbn. now rewrite Hid.
  - intros i b Hi Hdone. rewrite list_lookup_fmap, Hi. cbn.
    eexists. split; [reflexivity|].
    destruct (strictEquals (Card.id b) id); [reflexivity | exact Hdone].
Qed.

Lemma completeBooking_marks_witness :
  List.map Card.id
    (rows (after (completeBooking (KeyNumber (Num 1)) true accepted threeRows)))
  = List.map Card.id (rows threeRows).
Proof.
  destruct (completeBooking_marks (KeyNumber (Num 1)) accepted threeRows)
    as (_ & _ & Hids & _).
  - reflexivity.
  - exact Hids.
Defined.

Lemma deleteBooking_run (id : Key) (reply : Reply) (s : State) :
  deleteBooking id true reply s
  = let sent := [Confirm (deletePrompt id);
                 Plain (Fetch "DELETE"
                          ("/tenant/bookings/" ++ toString (keyValue id)) None)] in
    match replyError reply with
    | None =>
        (Done tt,
         setRows (List.filter (fun r => negb (strictEquals (Card.id r) id))
                    (rows s)) s,
         sent)
    | Some e =>
        (Done tt, s,
         (sent ++ [Plain (Alert ("Delete failed: " ++ describe e))])%list)
    end.
Proof.
  unfold deleteBooking, tryCatch, bind, emit. cbn [negb].
  rewrite request_run. destruct (replyError reply); reflexivity.
Qed.

(** X3. A deletion the user declines, or whose request fails, changes no
    cell of the state and throws nothing: declined, it sends no request;
    failed, it raises the one alert "Delete failed: ..." and every row is
    still there. *)
Theorem deleteBooking_keeps_state (id : Key) (confirmed : bool)
  (reply : Reply) (s : State) :
  confirmed = false \/ loadFails reply ->
  let run := deleteBooking id confirmed reply s in
  result run = Done tt
  /\ after run = s
  /\ (confirmed = false -> trace run = [Confirm (deletePrompt id)])
  /\ (confirmed = true ->
      exists e, replyError reply = Some e
        /\ dialogAlerts (trace run)
           = [Plain (Alert ("Delete failed: " ++ describe e))]).
Proof.
  intros Hwhy run. subst run. destruct confirmed.
  - destruct Hwhy as [Hno|Hfail]; [discriminate|].
    apply replyError_fails in Hfail as [e He].
    rewrite deleteBooking_run, He.
    split; [reflexivity|]. split; [reflexivity|].
    split; [intros Hno; discriminate Hno|].
    intros _. exists e. split; reflexivity.
  - split; [reflexivity|]. split; [reflexivity|].
    split; [reflexivity|]. intros Hyes. discriminate Hyes.
Qed.

Lemma deleteBooking_keeps_state_witness :
  after (deleteBooking (KeyNumber (Num 2)) false accepted threeRows) = threeRows
  /\ trace (deleteBooking (KeyNumber (Num 2)) false accepted threeRows)
     = [Confirm "Delete booking #2?"].
Proof.
  destruct (deleteBooking_keeps_state (KeyNumber (Num 2)) false accepted
              threeRows) as (_ & Hsame & Htrace & _).
  - left. reflexivity.
  - split; [exact Hsame | apply Htrace; reflexivity].
Defined.

(** The rows a filter keeps, in their order *)
Lemma filter_sublist {A} (f : A -> bool) (l : list A) :
  sublist (List.filter f l) l.
Proof.
  induction l as [|x l IH]; cbn; [constructor|].
  destruct (f x); now constructor.
Qed.

(** With ids that differ from row to row, one row at most has a given id *)
Lemma filter_one_out (id : Key) (l : list Booking) :
  List.NoDup (List.map Card.id l) ->
  (exists b, In b l /\ strictEquals (Card.id b) id = true) ->
  S (List.length
       (List.filter (fun r => negb (strictEquals (Card.id r) id)) l))
  = List.length l.
Proof.
  induction l as [|x l IH]; intros Hnd (b & Hb & Hid); [destruct Hb|].
  cbn [List.map] in Hnd. apply NoDup_cons_iff in Hnd as [Hx Hnd].
  cbn [List.filter List.length].
  destruct (strictEquals (Card.id x) id) eqn:Hxid; cbn [negb List.length].
  - f_equal. f_equal. apply forallb_filter_id, forallb_forall. intros r Hr.
    destruct (strictEquals (Card.id r) id) eqn:Hrid; [exfalso | reflexivity].
    apply Hx. apply in_map_iff. exists r. split; [|exact Hr].
    apply strictEquals_eq in Hxid, Hrid. congruence.
  - f_equal. apply IH; [exact Hnd|]. exists b. split; [|exact Hid].
    destruct Hb as [<-|Hb]; [congruence | exact Hb].
Qed.

(** X4. A deletion that the user confirms and the server accepts drops
    the rows with the given id and no other: what is left has no row with
    that id, keeps every row with another id, in the order they were in;
    when the ids differ from row to row and the id is there, exactly one
    row goes. *)
Theorem deleteBooking_removes (id : Key) (reply : Reply) (s : State) :
  replyError reply = None ->
  let run := deleteBooking id true reply s in
  let rows' := rows (after run) in
  result run = Done tt
  /\ dialogAlerts (trace run) = []
  /\ (forall b, In b rows' -> strictEquals (Card.id b) id = false)
  /\ (forall b, In b (rows s) ->
        strictEquals (Card.id b) id = false -> In b rows')
  /\ sublist rows' (rows s)
  /\ (List.NoDup (List.map Card.id (rows s)) ->
      (exists b, In b (rows s) /\ strictEquals (Card.id b) id = true) ->
      S (List.length rows') = List.length (rows s)).
Proof.
  intros Hok run rows'. subst rows' run. rewrite deleteBooking_run, Hok.
  unfold result, after, trace. cbn [fst snd rows setRows].
  split; [reflexivity|]. split; [reflexivity|].
  split; [|split; [|split]].
  - intros b [_ Hb]%filter_In. now apply negb_true_iff in Hb.
  - intros b Hb Hid. apply filter_In. split; [exact Hb|]. now rewrite Hid.
  - apply filter_sublist.
  - apply filter_one_out.
Qed.

Lemma deleteBooking_removes_witness :
  List.length (rows (after (deleteBooking (KeyNumber (Num 2)) true accepted
                              (setRows [jane; bob] initial)))) = 1%nat.
Proof.
  destruct (deleteBooking_removes (KeyNumber (Num 2)) accepted
              (setRows [jane; bob] initial)) as (_ & _ & _ & _ & _ & Hone).
  - reflexivity.
  - apply eq_add_S. apply Hone.
    + repeat constructor; cbn; intuition discriminate.
    + exists bob. split; [right; left; reflexivity | reflexivity].
Defined.

(** *** Loading, whatever the reply *)

Lemma mapFrom_normalizeFrom (items : list value) (k : nat) (s : State) :
  mapFrom (E := Event) (fun r i => orTypeError (normalizeRow r i)) k items s
  = (match normalizeFrom k items with
     | Some l => Done l
     | None => Thrown TypeError
     end, s, []).
Proof.
  revert k. induction items as [|r items IH]; intros k; [reflexivity|].
  cbn [mapFrom normalizeFrom]. unfold bind at 1.
  destruct (normalizeRow r k) as [b|]; cbn; [|reflexivity].
  unfold bind at 1. rewrite IH.
  destruct (normalizeFrom (S k) items); reflexivity.
Qed.

(** [loadBookings] in one step *)
Lemma loadBookings_run (reply : Reply) (s : State) :
  loadBookings reply s
  = match loadedRows reply with
    | inr l =>
        (Done tt, setLoading false (setRows l (setLoading true s)),
         [Fetch "GET" LIST_PATH None])
    | inl e =>
        (Done tt, setLoading false (setRows [] (setLoading true s)),
         [Fetch "GET" LIST_PATH None; ConsoleError e;
          Alert "Could not load bookings"])
    end.
Proof.
  unfold loadBookings, loadedRows, finally, tryCatch, apiGet, fetch, resJson,
    normalizeAll, when.
  destruct reply as [e|res]; [reflexivity|].
  unfold bind at 1 2 3. cbn [modify emit ret].
  destruct (ok res); cbn [negb]; [|reflexivity].
  unfold bind at 1 2. cbn [ret].
  destruct (json res) as [e|data]; [reflexivity|].
  unfold bind at 1. cbn [ret].
  destruct (itemsOf data) as [| |b|n|t|items|props]; try reflexivity.
  unfold bind at 1. rewrite mapFrom_normalizeFrom.
  destruct (normalizeFrom 0 items); reflexivity.
Qed.

(** X5. However the request of [loadBookings] turns out, the handler
    throws nothing, sends the one GET, clears the loading flag and leaves
    the controls, the form and the adding flag alone; it raises no alert,
    or the one alert "Could not load bookings" with the list emptied; and
    the rows it leaves are decided by the reply alone, not by the rows that
    were there. *)
Theorem loadBookings_settles (reply : Reply) (s : State) :
  let run := loadBookings reply s in
  result run = Done tt
  /\ loading (after run) = false
  /\ (view (after run), form (after run), adding (after run))
     = (view s, form s, adding s)
  /\ fetches (trace run) = [Fetch "GET" LIST_PATH None]
  /\ (alerts (trace run) = []
      \/ alerts (trace run) = [Alert "Could not load bookings"]
         /\ rows (after run) = [])
  /\ forall s2, rows (after (loadBookings reply s2)) = rows (after run).
Proof.
  intros run. subst run.
  assert (Hrows : forall s2,
            rows (after (loadBookings reply s2))
            = match loadedRows reply with inr l => l | inl _ => [] end).
  { intros s2. rewrite loadBookings_run. destruct (loadedRows reply); reflexivity. }
  repeat split; try (rewrite loadBookings_run; destruct (loadedRows reply); reflexivity).
  - rewrite loadBookings_run. destruct (loadedRows reply); [right | left]; repeat split.
  - intros s2. now rewrite !Hrows.
Qed.

Lemma normalizeFrom_rows (items : list value) :
  forall (k : nat) (l : list Booking),
  normalizeFrom k items = Some l ->
  List.length l = List.length items
  /\ forall (i : nat) (r : value),
       items !! i = Some r ->
       exists b, l !! i = Some b /\ normalizeRow r (k + i) = Some b.
Proof.
  intros k l Hl.
  assert (Hrun : result (mapFrom (E := Event)
                           (fun r i => orTypeError (normalizeRow r i))
                           k items initial) = Done l).
  { rewrite mapFrom_normalizeFrom, Hl. reflexivity. }
  split.
  - eapply mapFrom_normalizeRow_length, Hrun.
  - eapply mapFrom_normalizeRow, Hrun.
Qed.

Lemma normalizeFrom_total (items : list value) (k : nat) :
  Forall printable items ->
  exists l, normalizeFrom k items = Some l.
Proof.
  intros Hobj.
  destruct (mapFrom_normalizeRow_total items Hobj k initial) as [l Hl].
  rewrite mapFrom_normalizeFrom in Hl.
  destruct (normalizeFrom k items) as [l'|]; [eauto | discriminate Hl].
Qed.

(** X6. A 2xx reply whose body holds a list of records, none of them
    null and each with a name, a start time, a service and an address that
    have a string, replaces the rows wholesale: row [i] is the normalisation
    of record [i] with the index [i], there are as many rows as records, no
    alert is raised, and nothing of the former rows is kept. *)
Theorem loadBookings_replaces (res : Response) (data : value)
  (items : list value) (s : State) :
  ok res = true ->
  json res = inr data ->
  itemsOf data = Arr items ->
  Forall printable items ->
  let run := loadBookings (Replied res) s in
  alerts (trace run) = []
  /\ List.length (rows (after run)) = List.length items
  /\ forall (i : nat) (r : value),
       items !! i = Some r ->
       exists b, rows (after run) !! i = Some b /\ normalizeRow r i = Some b.
Proof.
  intros Hok Hjson Hitems Hobj run. subst run.
  destruct (normalizeFrom_total items 0 Hobj) as [l Hl].
  destruct (normalizeFrom_rows items 0 l Hl) as [Hlen Hrows].
  rewrite loadBookings_run. unfold loadedRows.
  rewrite Hok, Hjson, Hitems, Hl. cbn.
  split; [reflexivity|]. split; [exact Hlen | exact Hrows].
Qed.

Lemma loadBookings_replaces_witness :
  List.length
    (rows (after (loadBookings (replyJson (Obj [("bookings", Arr twins)]))
                    (setRows [bob] initial))))
  = 2%nat.
Proof.
  destruct (loadBookings_replaces
              {| status := 200; text := None;
                 json := inr (Obj [("bookings", Arr twins)]) |}
              (Obj [("bookings", Arr twins)]) twins (setRows [bob] initial))
    as (_ & Hlen & _).
  - reflexivity.
  - reflexivity.
  - reflexivity.
  - repeat constructor.
  - exact Hlen.
Defined.

Lemma find_noArray (props : list (string * value)) :
  noArray props -> List.find isArray (List.map snd props) = None.
Proof.
  induction 1 as [|[k v] props Hv _ IH]; [reflexivity|].
  cbn in *. now rewrite Hv.
Qed.

(** X7. A body of an unexpected shape is no error: a 2xx reply whose body
    is [null], a boolean, a number, a string, or an object with no array
    among its properties and nothing truthy under [items], [bookings],
    [rows] or [data], leaves an empty list and raises no alert. *)
Theorem loadBookings_permissive (data : value) (s : State) :
  match data with
  | Arr _ => False
  | Obj props => noArray props /\ noWrapper props
  | _ => True
  end ->
  let run := loadBookings (replyJson data) s in
  rows (after run) = [] /\ alerts (trace run) = []
  /\ loading (after run) = false.
Proof.
  intros Hshape run. subst run.
  assert (Hitems : itemsOf data = Arr []).
  { destruct data as [| |b|n|t|items|props]; try reflexivity; [destruct Hshape|].
    destruct Hshape as (Harr & Hi & Hb & Hr & Hd).
    unfold itemsOf. cbn [isArray orChain fold_right prop get].
    unfold or. rewrite Hi, Hb, Hr, Hd. cbn.
    now rewrite (find_noArray props Harr). }
  rewrite loadBookings_run. unfold loadedRows, replyJson. cbn [ok status json].
  cbn [Z.leb Z.compare Pos.compare Pos.compare_cont andb negb].
  rewrite Hitems. cbn. repeat split.
Qed.

Lemma loadBookings_permissive_witness :
  rows (after (loadBookings (replyJson (Obj [("count", Number (Num 0))]))
                 (setRows [jane] initial))) = [].
Proof.
  destruct (loadBookings_permissive (Obj [("count", Number (Num 0))])
              (setRows [jane] initial)) as (Hrows & _).
  - split; [repeat constructor | repeat split].
  - exact Hrows.
Defined.

Lemma normalizeFrom_null (items : list value) (k : nat) :
  In Null items -> normalizeFrom k items = None.
Proof.
  revert k. induction items as [|r items IH]; intros k Hin; [destruct Hin|].
  destruct Hin as [Hr|Hin].
  - subst r. reflexivity.
  - cbn. rewrite (IH (S k) Hin). now destruct (normalizeRow r k).
Qed.

(** X8. One [null] among the records loses the whole list: the load ends
    with the alert "Could not load bookings" and no rows, whatever the
    other records are. *)
Theorem loadBookings_null_record (res : Response) (data : value)
  (items : list value) (s : State) :
  ok res = true ->
  json res = inr data ->
  itemsOf data = Arr items ->
  In Null items ->
  let run := loadBookings (Replied res) s in
  rows (after run) = []
  /\ alerts (trace run) = [Alert "Could not load bookings"]
  /\ result run = Done tt.
Proof.
  intros Hok Hjson Hitems Hnull run. subst run.
  rewrite loadBookings_run. unfold loadedRows.
  rewrite Hok, Hjson, Hitems, (normalizeFrom_null items 0 Hnull). cbn.
  repeat split.
Qed.

Lemma loadBookings_null_record_witness :
  rows (after (loadBookings (replyJson (Arr (twins ++ [Null])%list)) initial))
  = [].
Proof.
  destruct (loadBookings_null_record
              {| status := 200; text := None;
                 json := inr (Arr (twins ++ [Null])%list) |}
              (Arr (twins ++ [Null])%list) (twins ++ [Null])%list initial)
    as (Hrows & _).
  - reflexivity.
  - reflexivity.
  - reflexivity.
  - right. right. left. reflexivity.
  - exact Hrows.
Defined.

(** *** Creating, past the guard *)

Lemma failureText_nonempty (res : Response) : failureText res <> "".
Proof.
  unfold failureText. destruct (text res) as [t|]; cbn.
  - destruct (String.eqb_spec t ""); [discriminate | assumption].
  - discriminate.
Qed.

Lemma apiJson_run (path method : string) (body : value) (reply : Reply)
  (s : State) :
  exists v,
    apiJson path method body reply s
    = (match postError reply with Some e => Thrown e | None => Done v end,
       s, [Fetch method path (Some body)]).
Proof.
  unfold apiJson, postError, fetch, resJson, failureText, bind, emit, throw, ret.
  destruct reply as [e|res]; cbn; [exists Null; reflexivity|].
  destruct (ok res); cbn.
  - destruct (json res) as [e|v]; [exists Null | exists v]; reflexivity.
  - exists Null. reflexivity.
Qed.

(** [handleAdd] in one step, for a form with a name and a time *)
Lemma handleAdd_run h (post list : Reply) (s : State) :
  filledIn (form s) ->
  handleAdd h post list s
  = let sent := Fetch "POST" CREATE_PATH (Some (createBody h (form s))) in
    match postError post with
    | Some e =>
        (Done tt, setAdding false (setAdding true s),
         [sent; Alert ("Create failed: " ++ describe e)])
    | None =>
        (Done tt,
         setAdding false
           (after (loadBookings list (setForm Form.empty (setAdding true s)))),
         sent :: trace (loadBookings list (setForm Form.empty (setAdding true s))))
    end.
Proof.
  intros [Hname Htime]. unfold handleAdd.
  unfold bind at 1. cbn [gets].
  apply String.eqb_neq in Hname, Htime. rewrite Hname, Htime. cbn [orb].
  unfold bind at 1. cbn [modify]. unfold finally, tryCatch.
  unfold bind at 1.
  destruct (apiJson_run CREATE_PATH "POST" (createBody h (form s)) post
              (setAdding true s)) as [v Hv].
  cbn [form setAdding] in *. rewrite Hv.
  destruct (postError post) as [e|]; [reflexivity|].
  unfold bind at 1. cbn [modify].
  rewrite loadBookings_run. destruct (loadedRows list); reflexivity.
Qed.

(** X9. When the create request fails (the fetch rejects, the response is
    not 2xx, or its body is no JSON), [handleAdd] throws nothing, sends the
    POST and nothing else, raises the one alert "Create failed: ..." and
    leaves rows, form, loading flag and controls as they were, with the
    adding flag cleared: the form keeps what was typed. A non-2xx response
    with a body has that body as the text of the alert. *)
Theorem handleAdd_failure h (post list : Reply) (s : State) (e : error) :
  filledIn (form s) ->
  postError post = Some e ->
  let run := handleAdd h post list s in
  result run = Done tt
  /\ after run = setAdding false s
  /\ trace run = [Fetch "POST" CREATE_PATH (Some (createBody h (form s)));
                  Alert ("Create failed: " ++ describe e)]
  /\ (forall res t, post = Replied res -> ok res = false ->
        text res = Some t -> t <> "" -> describe e = t).
Proof.
  intros Hform He run. subst run. rewrite (handleAdd_run h post list s Hform), He.
  split; [reflexivity|]. split; [reflexivity|]. split; [reflexivity|].
  intros res t -> Hok Ht Hne. cbn in He. rewrite Hok in He.
  injection He as <-. unfold failureText. rewrite Ht.
  apply String.eqb_neq in Hne. rewrite Hne. cbn. now rewrite Hne.
Qed.

Lemma handleAdd_failure_witness :
  trace (handleAdd Eastern.host refused accepted (setForm janeAtTen initial))
  = [Fetch "POST" CREATE_PATH
       (Some (createBody Eastern.host janeAtTen));
     Alert "Create failed: slot taken"].
Proof.
  destruct (handleAdd_failure Eastern.host refused accepted
              (setForm janeAtTen initial) (Error "slot taken"))
    as (_ & _ & Htrace & _).
  - split; discriminate.
  - reflexivity.
  - exact Htrace.
Defined.

(** X10. When the create request succeeds, [handleAdd] clears the form,
    reloads the list (POST, then GET) and ends with both flags cleared; the
    rows are those the reload leaves, and the only alert there can be is
    the reload's. *)
Theorem handleAdd_success h (post list : Reply) (s : State) :
  filledIn (form s) ->
  postError post = None ->
  let run := handleAdd h post list s in
  result run = Done tt
  /\ form (after run) = Form.empty
  /\ adding (after run) = false
  /\ loading (after run) = false
  /\ view (after run) = view s
  /\ fetches (trace run)
     = [Fetch "POST" CREATE_PATH (Some (createBody h (form s)));
        Fetch "GET" LIST_PATH None]
  /\ rows (after run) = rows (after (loadBookings list s))
  /\ alerts (trace run) = alerts (trace (loadBookings list s)).
Proof.
  intros Hform Hok run. subst run. rewrite (handleAdd_run h post list s Hform), Hok.
  rewrite !loadBookings_run. destruct (loadedRows list); repeat split.
Qed.

Lemma handleAdd_success_witness :
  form (after (handleAdd Eastern.host accepted (replyJson (Arr twins))
                 (setForm janeAtTen initial))) = Form.empty
  /\ List.length
       (rows (after (handleAdd Eastern.host accepted (replyJson (Arr twins))
                       (setForm janeAtTen initial)))) = 2%nat.
Proof.
  destruct (handleAdd_success Eastern.host accepted (replyJson (Arr twins))
              (setForm janeAtTen initial)) as (_ & Hform & _ & _ & _ & _ & Hrows & _).
  - split; discriminate.
  - reflexivity.
  - split; [exact Hform|]. rewrite Hrows. reflexivity.
Defined.

(** *** What a render shows *)

Lemma fieldIncludes_textual (v : value) (q : string) :
  is_Some (lowerOf v) ->
  (fieldIncludes v q (∅ : Heap)).1.1 = Done (fieldHit q v).
Proof.
  intros [s Hs]. unfold fieldIncludes, fieldHit, bind, orTypeError.
  rewrite Hs. reflexivity.
Qed.

Lemma orElse_first (a b : Render bool) (x : bool) :
  a ∅ = (Done x, ∅, []) ->
  (orElse a b ∅).1.1 = if x then Done true else (b ∅).1.1.
Proof.
  intros Ha. unfold orElse, bind. rewrite Ha.
  destruct x; [reflexivity|]. now destruct (b ∅) as [[r σ] w].
Qed.

Lemma fieldIncludes_first (v : value) (q : string) :
  is_Some (lowerOf v) ->
  fieldIncludes v q (∅ : Heap) = (Done (fieldHit q v), ∅, []).
Proof.
  intros Hv. now rewrite fieldIncludes_run, (fieldIncludes_textual v q Hv).
Qed.

Lemma matchesSearch_rowHit (q : string) (b : Booking) :
  textual b -> (matchesSearch q b (∅ : Heap)).1.1 = Done (rowHit q b).
Proof.
  intros (Hn & Hp & He & Ht). unfold matchesSearch, rowHit.
  rewrite (orElse_first _ _ _ (fieldIncludes_first _ q Hn)).
  destruct (fieldHit q (name b)); [reflexivity|]. cbn [orb].
  rewrite (orElse_first _ _ _ (fieldIncludes_first _ q Hp)).
  destruct (fieldHit q (phone b)); [reflexivity|]. cbn [orb].
  rewrite (orElse_first _ _ _ (fieldIncludes_first _ q He)).
  destruct (fieldHit q (email b)); [reflexivity|]. cbn [orb].
  apply fieldIncludes_textual, Ht.
Qed.

Lemma filterM_search_textual (q : string) (l : list Booking) :
  Forall textual l ->
  (filterM (matchesSearch q) l (∅ : Heap)).1.1 = Done (List.filter (rowHit q) l).
Proof.
  induction 1 as [|x l Hx _ IH]; [reflexivity|].
  cbn [filterM List.filter]. unfold bind at 1.
  rewrite (matchesSearch_run q x ∅), (matchesSearch_rowHit q x Hx).
  unfold bind at 1. rewrite (filterM_search_run q l ∅), IH.
  destruct (rowHit q x); reflexivity.
Qed.

Lemma searchContent_filter (term : string) (l : list Booking) :
  trim (toLowerCase term) = "" \/ Forall textual l ->
  searchContent term l = Done (List.filter (searchPass term) l).
Proof.
  unfold searchContent, searchPass. intros Hok.
  destruct (String.eqb_spec (trim (toLowerCase term)) "") as [Hq|Hq].
  - cbn [orb]. f_equal. symmetry. apply forallb_filter_id, forallb_forall. auto.
  - destruct Hok as [Hq'|Htext]; [contradiction|].
    rewrite (filterM_search_textual _ l Htext). reflexivity.
Qed.

Lemma filter_filter {A} (f g : A -> bool) (l : list A) :
  List.filter g (List.filter f l) = List.filter (fun x => f x && g x) l.
Proof.
  induction l as [|x l IH]; [reflexivity|]. cbn.
  destruct (f x); cbn; [destruct (g x)|]; now rewrite IH.
Qed.

Lemma filteredContent_passes h now v (l : list Booking) :
  trim (toLowerCase (search v)) = "" \/ Forall textual l ->
  filteredContent h now v l = Done (List.filter (passes h now v) l).
Proof.
  intros Hok. unfold filteredContent. rewrite (searchContent_filter _ l Hok).
  f_equal. unfold completionContent, passes, completionPass.
  destruct (hidePast v), (showCompletedOnly v), (showIncompleteOnly v);
    cbn [negb orb]; rewrite ?filter_filter; apply filter_ext; intros b;
    destruct (searchPass (search v) b), (notPast h now b), (completed b);
    reflexivity.
Qed.


Lemma insertBy_Permutation cmp (x : Booking) (l : list Booking) :
  Permutation (insertBy cmp x l) (x :: l).
Proof.
  induction l as [|y l IH]; cbn; [reflexivity|].
  destruct (gt0 (cmp x y)); [|reflexivity].
  rewrite IH. apply perm_swap.
Qed.

Lemma sortWith_Permutation cmp (l : list Booking) :
  Permutation (sortWith cmp l) l.
Proof.
  unfold sortWith. induction l as [|x l IH]; cbn; [reflexivity|].
  rewrite insertBy_Permutation. now constructor.
Qed.

Lemma sortedContent_Permutation h v (l : list Booking) :
  Permutation (sortedContent h v l) l.
Proof.
  unfold sortedContent.
  destruct (String.eqb (sortBy v) "upcoming"); [apply sortWith_Permutation|].
  destruct (String.eqb (sortBy v) "created"); [apply sortWith_Permutation|].
  reflexivity.
Qed.

(** X11. Take rows whose dates [new Date] accepts, and either a search
    box that is blank or a search term in ASCII over rows whose text fields
    are strings in ASCII (or falsy). A render returns an array that was not
    on the heap before and that holds, in some order and row for row,
    exactly the rows that pass the filters that are on: the search over
    name, phone, email and note in lower case, "Hide past", and the
    completion check boxes. With a sort key other than "upcoming" or
    "created" the rows keep the order they had. *)
Theorem visible_shows_passing h now v (rows : Ref) (σ : Heap)
  (l : list Booking) :
  σ !! rows = Some l ->
  Forall dated l ->
  trim (toLowerCase (search v)) = ""
  \/ (asciiOnly (search v) = true /\ Forall textual l /\ Forall asciiText l) ->
  let run := visible h now v rows σ in
  exists r out,
    result run = Done r
    /\ σ !! r = None
    /\ after run !! r = Some out
    /\ after run !! rows = Some l
    /\ Permutation out (List.filter (passes h now v) l)
    /\ (forall b, In b out <-> In b l /\ passes h now v b = true)
    /\ (sortBy v <> "upcoming" -> sortBy v <> "created" ->
        out = List.filter (passes h now v) l).
Proof.
  intros Hrows _ Hsearch run. subst run.
  assert (Hok : trim (toLowerCase (search v)) = "" \/ Forall textual l).
  { destruct Hsearch as [Hblank|(_ & Htext & _)]; [now left | now right]. }
  pose proof (visible_returns h now v σ σ rows l (reflexivity σ) Hrows) as Hrun.
  unfold visibleContent in Hrun.
  rewrite (filteredContent_passes h now v l Hok) in Hrun.
  destruct Hrun as (r & σ' & Hrun & Hsub & Hout & Hnew).
  exists r, (sortedContent h v (List.filter (passes h now v) l)).
  rewrite Hrun. unfold result, after. cbn [fst snd].
  split; [reflexivity|]. split; [exact Hnew|]. split; [exact Hout|].
  split; [eapply lookup_weaken; [exact Hrows | exact Hsub]|].
  split; [apply sortedContent_Permutation|]. split.
  - intros b. rewrite sortedContent_In. apply filter_In.
  - intros Hup Hcr. unfold sortedContent.
    apply String.eqb_neq in Hup, Hcr. now rewrite Hup, Hcr.
Qed.

Lemma visible_shows_passing_witness :
  exists r out,
    after (visible Eastern.host midMay searchJa 0%nat twoRows) !! r = Some out
    /\ twoRows !! r = None
    /\ Permutation out [jane].
Proof.
  destruct (visible_shows_passing Eastern.host midMay searchJa 0%nat
              twoRows [jane; bob]) as (r & out & _ & Hnew & Hout & _ & Hperm & _).
  - reflexivity.
  - repeat constructor.
  - right. split; [reflexivity|]. split.
    + repeat constructor; eexists; reflexivity.
    + repeat constructor.
  - exists r, out. split; [exact Hout|]. split; [exact Hnew | exact Hperm].
Defined.

(** *** The order of the rows *)

Section Sorting.
Variable cmp : Booking -> Booking -> number.
Variable key : Booking -> Z.






End Sorting.




Example visible_upcoming_order :
  shown (visible Eastern.host midMay initialView 0%nat threeOnHeap)
  = Done (Some [jane; janeLater]).
Proof. vm_compute. reflexivity. Qed.





(** Jane (start 1 June), Jane later (created 20 May), Bob (start 1 May) *)
Example visible_newest_order :
  shown (visible Eastern.host midMay newestFirst 0%nat threeOnHeap)
  = Done (Some [jane; janeLater; bob]).
Proof. vm_compute. reflexivity. Qed.

(** *** A search over a field that is no string *)






(** *** What normalisation leaves in a row *)

Lemma or_truthyOr (a b fallback : value) :
  truthyOr fallback b -> truthyOr fallback (or a b).
Proof.
  unfold or. destruct (truthy a) eqn:Ha; [right; exact Ha | auto].
Qed.

Lemma orChain_truthyOr (vs : list value) (fallback : value) :
  truthyOr fallback (orChain vs fallback).
Proof.
  unfold orChain. induction vs as [|v vs IH]; cbn; [now left|].
  now apply or_truthyOr.
Qed.

Lemma truthy_or (a b : value) : truthy (or a b) = truthy a || truthy b.
Proof. unfold or. destruct (truthy a) eqn:Ha; [exact Ha | reflexivity]. Qed.

(** X15. Whatever the record holds, the row made of it has no
    [undefined], zero, [false] or [NaN] in its fields: start time, creation
    time and tenant are [null] or truthy; name, email, phone and note are
    the empty string or truthy; and the row is completed exactly when the
    record has a truthy [completed] or [completed_at]. *)
Theorem normalizeRow_defaults (r : value) (i : nat) (b : Booking) :
  normalizeRow r i = Some b ->
  truthyOr Null (starts_at b)
  /\ truthyOr Null (created_at b)
  /\ truthyOr Null (tenant_id b)
  /\ truthyOr (Str "") (name b)
  /\ truthyOr (Str "") (email b)
  /\ truthyOr (Str "") (phone b)
  /\ truthyOr (Str "") (note b)
  /\ completed b
     = truthy (prop r "completed") || truthy (prop r "completed_at").
Proof.
  unfold normalizeRow. destruct (nullish r); [discriminate|].
  destruct (joinThrows r || keyThrows r _ i); [discriminate|].
  intros [= <-]. cbn [starts_at created_at tenant_id name email phone note completed].
  split.
  { exact (orChain_truthyOr [prop r "starts_at"; prop r "start";
             prop r "starts_at_iso"; prop r "start_iso"; prop r "when"] Null). }
  split.
  { exact (orChain_truthyOr [prop r "created_at"; prop r "created";
             prop r "created_at_iso"; prop r "createdAt"] Null). }
  split; [exact (orChain_truthyOr [prop r "tenant_id"; prop r "tenant"] Null)|].
  split; [apply or_truthyOr; now left|]. split; [apply or_truthyOr; now left|].
  split; [apply or_truthyOr; now left|].
  split; [|apply truthy_or].
  exact (orChain_truthyOr
           [prop r "note"; prop r "notes";
            Str (join " | " (List.map toString
                   (List.filter truthy [prop r "service"; prop r "address"])))]
           (Str "")).
Qed.

Lemma normalizeRow_defaults_witness :
  exists b, normalizeRow (Obj [("name", Number (Num 0)); ("completed_at", Str "x")])
              0 = Some b
            /\ name b = Str "" /\ completed b = true.
Proof.
  eexists. split; [reflexivity|].
  destruct (normalizeRow_defaults
              (Obj [("name", Number (Num 0)); ("completed_at", Str "x")]) 0 _
              eq_refl) as (_ & _ & _ & Hname & _ & _ & _ & Hdone).
  split; [|exact Hdone].
  destruct Hname as [Hname|Hname]; [exact Hname | discriminate Hname].
Defined.

(** X16. A record without a start time under any of the five names gives
    a row whose start is [null]: its time cell is empty, [new Date] dates
    it at the epoch, so that "Hide past" hides it at any instant after
    1970. *)
Theorem normalizeRow_no_start h (r : value) (i : nat) (b : Booking) :
  normalizeRow r i = Some b ->
  hasStart r = false ->
  starts_at b = Null
  /\ formatDateAny h (starts_at b) = ""
  /\ startTime h b = Num 0
  /\ forall now, 0 < now -> notPast h now b = false.
Proof.
  intros Hb Hno.
  assert (Hstart : starts_at b = Null).
  { unfold normalizeRow in Hb. destruct (nullish r); [discriminate|].
    destruct (joinThrows r || keyThrows r _ i); [discriminate|].
    injection Hb as <-. cbn [starts_at]. unfold hasStart in Hno.
    destruct (orChain_truthyOr
                [prop r "starts_at"; prop r "start"; prop r "starts_at_iso";
                 prop r "start_iso"; prop r "when"] Null) as [H|H];
      [exact H | congruence]. }
  unfold notPast, startTime. rewrite Hstart. cbn.
  repeat split. intros now Hnow. apply Z.leb_gt, Hnow.
Qed.

Lemma normalizeRow_no_start_witness :
  exists b, normalizeRow (Obj [("name", Str "Ann")]) 0 = Some b
            /\ notPast Eastern.host midMay b = false.
Proof.
  eexists. split; [reflexivity|].
  destruct (normalizeRow_no_start Eastern.host (Obj [("name", Str "Ann")]) 0 _
              eq_refl) as (_ & _ & _ & Hpast).
  - reflexivity.
  - apply Hpast. reflexivity.
Defined.

Lemma or_Str_empty (x : string) : or (Str x) (Str "") = Str x.
Proof.
  unfold or. cbn [truthy].
  destruct (String.eqb_spec x "") as [Hx|Hx]; cbn [negb]; [now subst | reflexivity].
Qed.

(** X17. The note of a row is the record's [note], else its [notes],
    else what there is of service and address: both, joined by " | "; the
    one that is there, alone and with no separator; or the empty string. *)
Theorem normalizeRow_note (r : value) (i : nat) (b : Booking) :
  normalizeRow r i = Some b ->
  (truthy (prop r "note") = true -> note b = prop r "note")
  /\ (truthy (prop r "note") = false -> truthy (prop r "notes") = true ->
      note b = prop r "notes")
  /\ (truthy (prop r "note") = false -> truthy (prop r "notes") = false ->
      note b
      = Str (match truthy (prop r "service"), truthy (prop r "address") with
             | true, true =>
                 toString (prop r "service") ++ " | "
                 ++ toString (prop r "address")
             | true, false => toString (prop r "service")
             | false, true => toString (prop r "address")
             | false, false => ""
             end)).
Proof.
  unfold normalizeRow. destruct (nullish r); [discriminate|].
  destruct (joinThrows r || keyThrows r _ i); [discriminate|].
  intros [= <-]. cbn [note].
  change (orChain _ _)
    with (or (prop r "note")
            (or (prop r "notes")
               (or (Str (join " | " (List.map toString
                          (List.filter truthy
                             [prop r "service"; prop r "address"]))))
                   (Str "")))).
  split; [|split].
  - intros Hnote. unfold or at 1. now rewrite Hnote.
  - intros Hnote Hnotes. unfold or at 1. rewrite Hnote.
    unfold or at 1. now rewrite Hnotes.
  - intros Hnote Hnotes. unfold or at 1. rewrite Hnote.
    unfold or at 1. rewrite Hnotes. cbn [List.filter].
    destruct (truthy (prop r "service")), (truthy (prop r "address"));
      cbn [List.map join]; apply or_Str_empty.
Qed.

Lemma normalizeRow_note_witness :
  exists b, normalizeRow serviceOnly 0 = Some b /\ note b = Str "AC repair".
Proof.
  eexists. split; [reflexivity|].
  destruct (normalizeRow_note serviceOnly 0 _ eq_refl) as (_ & _ & Hjoin).
  apply Hjoin; reflexivity.
Defined.

(** *** Reading a label back *)

(** Case analysis on the tests of a parser, one at a time *)
Ltac split_if :=
  match goal with
  | |- context [if ?c then _ else _] =>
      lazymatch c with
      | context [if _ then _ else _] => fail
      | _ => destruct c eqn:?
      end
  end.

Ltac split_opt :=
  match goal with
  | |- context [match ?x with Some _ => _ | None => _ end] => destruct x eqn:?
  end.

(** Compute with the shape of the strings, leave characters and numbers *)
Ltac parse_step :=
  cbn -[isDigit Ascii.eqb Z.mul Z.add Z.sub Z.leb Z.eqb Z.opp daysFromCivil
        daysInMonth msPerDay msPerHour msPerMinute Z.of_nat nat_of_ascii
        offsetOf].

(** Write an append of two explicit strings as one string *)
Ltac join_strings :=
  repeat match goal with
  | |- context [(?x ++ ?y)%string] =>
      let r := eval lazy beta iota zeta fix delta [String.append]
               in (x ++ y)%string in
      progress change (x ++ y)%string with r
  end.

Lemma offsetOf_sign (c : ascii) (z : string) (east : Z) :
  offsetOf (String c z) = Some east -> Ascii.eqb "." c = false.
Proof.
  intros Hz. destruct (Ascii.eqb_spec "." c) as [<-|]; [|reflexivity].
  exfalso. revert Hz. unfold offsetOf, charIs. cbn [String.get].
  change (Ascii.eqb "+" ".") with false. change (Ascii.eqb "-" ".") with false.
  repeat (split_if || split_opt); discriminate.
Qed.

(** A local reading with seconds, followed by an offset, is the instant
    that many minutes away from the reading taken as UTC. *)
Lemma parseIso_labelled (wall z : string) (wl east : Z) :
  String.length wall = 19%nat ->
  parseIso wall = IsoLocal wl ->
  offsetOf z = Some east ->
  parseIso (wall ++ z) = IsoUtc (wl - east * msPerMinute).
Proof.
  intros Hlen Hwall Hz.
  assert (Hzlen : String.length z = 6%nat).
  { unfold offsetOf in Hz.
    destruct (Nat.eqb_spec (String.length z) 6); [assumption | discriminate]. }
  do 19 (destruct wall as [|? wall]; [discriminate Hlen|]).
  destruct wall; [|discriminate Hlen]. clear Hlen.
  do 6 (destruct z as [|? z]; [discriminate Hzlen|]).
  destruct z; [|discriminate Hzlen]. clear Hzlen.
  pose proof (offsetOf_sign _ _ _ Hz) as Hs.
  revert Hwall. join_strings.
  unfold parseIso, dateOf, timeOf, field, charIs, dropChars. parse_step.
  rewrite ?Hs, ?andb_false_r.
  repeat ((split_if || split_opt); parse_step;
          rewrite ?Hz, ?Hs, ?andb_false_r;
          try (intros H; discriminate H)).
  all: intros [= <-]; f_equal; lia.
Qed.

Lemma withSeconds_length (w : string) :
  String.length w = 16%nat \/ String.length w = 19%nat ->
  String.length (withSeconds w) = 19%nat.
Proof.
  unfold withSeconds. intros [H|H]; rewrite H; cbn [Nat.eqb]; [|exact H].
  rewrite append_length, H. reflexivity.
Qed.

Lemma label_reads_back h (wall : string) (wl t : Z) :
  String.length wall = 19%nat ->
  parseIso wall = IsoLocal wl ->
  Host.localToUtc h wl = t ->
  Z.abs t <= Date.maxTime ->
  Z.abs (Host.tzOffset h t) < 1440 ->
  Date.parse h wall = Num t
  /\ (Date.parse h (wall ++ offsetSuffix (Num (Host.tzOffset h t))) = Num t
      <-> Date.localTime h t = wl).
Proof.
  intros Hlen Hiso Ht Hclip Hoff.
  assert (Hparse : Date.parse h wall = Num t).
  { unfold Date.parse, Date.TimeClip. rewrite Hiso, Ht.
    destruct (Z.leb_spec (Z.abs t) Date.maxTime); [reflexivity | lia]. }
  split; [exact Hparse|].
  unfold Date.parse.
  rewrite (parseIso_labelled _ _ wl (- Host.tzOffset h t) Hlen Hiso
             (offsetSuffix_reads_back _ Hoff)).
  unfold Date.localTime, Date.TimeClip.
  destruct (Z.leb_spec (Z.abs (wl - - Host.tzOffset h t * msPerMinute))
              Date.maxTime); split; intros H'; try discriminate H'.
  - injection H' as H'. lia.
  - f_equal. lia.
  - exfalso. assert (wl - - Host.tzOffset h t * msPerMinute = t) by lia. lia.
Qed.

(** X18. For a wall-clock string of 16 or 19 characters that [new Date]
    reads as the local reading [wl] and takes for the instant [t], the
    label [localWallToZonedIso] makes reads back as the very instant [t]
    exactly when the zone shows the reading [wl] at [t]; for a reading the
    clocks skip, which the zone never shows, the label names another
    instant. *)
Theorem localWallToZonedIso_round_trip h (w : string) (wl t : Z) :
  String.length w = 16%nat \/ String.length w = 19%nat ->
  parseIso (withSeconds w) = IsoLocal wl ->
  Host.localToUtc h wl = t ->
  Z.abs t <= Date.maxTime ->
  Z.abs (Host.tzOffset h t) < 1440 ->
  Date.parse h (withSeconds w) = Num t
  /\ (Date.parse h (localWallToZonedIso h w) = Num t
      <-> Date.localTime h t = wl).
Proof.
  intros Hlen Hiso Ht Hclip Hoff.
  destruct (label_reads_back h _ wl t (withSeconds_length w Hlen) Hiso Ht
              Hclip Hoff) as [Hparse Hback].
  split; [exact Hparse|].
  unfold localWallToZonedIso. cbn [Date.make]. rewrite Hparse.
  exact Hback.
Qed.

Lemma localWallToZonedIso_round_trip_witness :
  Date.parse Eastern.host (localWallToZonedIso Eastern.host "2024-06-01T10:00")
  = Num 1717250400000.
Proof.
  destruct (localWallToZonedIso_round_trip Eastern.host "2024-06-01T10:00"
              1717236000000 1717250400000) as [_ Hback].
  - left. reflexivity.
  - reflexivity.
  - reflexivity.
  - vm_compute. discriminate.
  - vm_compute. reflexivity.
  - apply Hback. reflexivity.
Defined.

(** *** Printing the end of a booking and reading it back *)

Lemma allFrom_spec (f : Z -> bool) (count : nat) :
  forall start, allFrom f start count = true ->
  forall d, start <= d < start + Z.of_nat count -> f d = true.
Proof.
  induction count as [|c IH]; intros start Hall d Hd; [lia|].
  cbn [allFrom] in Hall. apply andb_prop in Hall as [Hs Hrest].
  destruct (Z.eq_dec d start) as [->|Hne]; [exact Hs|].
  apply (IH (start + 1) Hrest). lia.
Qed.

(** Checked day by day, and number by number *)
Lemma modern_all : allFrom civilReadsBack 0 (Z.to_nat modernDays) = true.
Proof. vm_compute. reflexivity. Qed.
Lemma two_all : allFrom twoReadBack 0 (Z.to_nat 100) = true.
Proof. vm_compute. reflexivity. Qed.
Lemma four_all : allFrom fourReadBack 1970 (Z.to_nat 130) = true.
Proof. vm_compute. reflexivity. Qed.

Lemma modern_civil (d : Z) :
  0 <= d < modernDays ->
  exists y m dd,
    civilFromDays d = (y, m, dd)
    /\ daysFromCivil y m dd = d
    /\ 1 <= m <= 12 /\ 1 <= dd <= daysInMonth y m /\ 1970 <= y <= 2099.
Proof.
  intros Hd.
  pose proof (allFrom_spec _ _ _ modern_all d) as H.
  rewrite Z2Nat.id in H by (unfold modernDays; lia). specialize (H ltac:(lia)).
  unfold civilReadsBack in H. destruct (civilFromDays d) as [[y m] dd].
  exists y, m, dd. split; [reflexivity|].
  repeat (apply andb_prop in H as [H ?]). lia.
Qed.

Lemma two_digits (n : Z) :
  0 <= n < 100 ->
  exists c0 c1,
    pad2 (Num n) = String c0 (String c1 "")
    /\ digitsFrom (String c0 (String c1 "")) 0 = Some n.
Proof.
  intros Hn.
  pose proof (allFrom_spec _ _ _ two_all n) as H.
  rewrite Z2Nat.id in H by lia. specialize (H ltac:(lia)).
  unfold twoReadBack in H.
  destruct (pad2 (Num n)) as [|c0 [|c1 [|]]]; try discriminate H.
  exists c0, c1. split; [reflexivity|].
  destruct (digitsFrom _ 0) as [k|]; [|discriminate H].
  apply Z.eqb_eq in H. now subst.
Qed.

Lemma four_digits (y : Z) :
  1970 <= y <= 2099 ->
  exists c0 c1 c2 c3,
    numberToString (Num y) = String c0 (String c1 (String c2 (String c3 "")))
    /\ digitsFrom (String c0 (String c1 (String c2 (String c3 "")))) 0 = Some y.
Proof.
  intros Hy.
  pose proof (allFrom_spec _ _ _ four_all y) as H.
  rewrite Z2Nat.id in H by lia. specialize (H ltac:(lia)).
  unfold fourReadBack in H.
  destruct (numberToString (Num y)) as [|c0 [|c1 [|c2 [|c3 [|]]]]]; try discriminate H.
  exists c0, c1, c2, c3. split; [reflexivity|].
  destruct (digitsFrom _ 0) as [k|]; [|discriminate H].
  apply Z.eqb_eq in H. now subst.
Qed.

Lemma digitsFrom_two (c0 c1 : ascii) (n : Z) :
  digitsFrom (String c0 (String c1 "")) 0 = Some n ->
  isDigit c0 = true /\ isDigit c1 = true
  /\ 10 * (10 * 0 + (Z.of_nat (nat_of_ascii c0) - 48))
     + (Z.of_nat (nat_of_ascii c1) - 48) = n.
Proof.
  cbn [digitsFrom]. destruct (isDigit c0); [|discriminate].
  destruct (isDigit c1); [|discriminate]. intros [= <-]. auto.
Qed.

Lemma digitsFrom_four (c0 c1 c2 c3 : ascii) (n : Z) :
  digitsFrom (String c0 (String c1 (String c2 (String c3 "")))) 0 = Some n ->
  isDigit c0 = true /\ isDigit c1 = true /\ isDigit c2 = true
  /\ isDigit c3 = true
  /\ 10 * (10 * (10 * (10 * 0 + (Z.of_nat (nat_of_ascii c0) - 48))
                  + (Z.of_nat (nat_of_ascii c1) - 48))
            + (Z.of_nat (nat_of_ascii c2) - 48))
     + (Z.of_nat (nat_of_ascii c3) - 48) = n.
Proof.
  cbn [digitsFrom]. destruct (isDigit c0); [|discriminate].
  destruct (isDigit c1); [|discriminate]. destruct (isDigit c2); [|discriminate].
  destruct (isDigit c3); [|discriminate]. intros [= <-]. auto.
Qed.

Lemma parseIso_fields (y0 y1 y2 y3 m0 m1 d0 d1 h0 h1 i0 i1 s0 s1 : ascii)
  (y m d hh mi ss : Z) :
  digitsFrom (String y0 (String y1 (String y2 (String y3 "")))) 0 = Some y ->
  digitsFrom (String m0 (String m1 "")) 0 = Some m ->
  digitsFrom (String d0 (String d1 "")) 0 = Some d ->
  digitsFrom (String h0 (String h1 "")) 0 = Some hh ->
  digitsFrom (String i0 (String i1 "")) 0 = Some mi ->
  digitsFrom (String s0 (String s1 "")) 0 = Some ss ->
  1 <= m <= 12 -> 1 <= d <= daysInMonth y m ->
  hh <= 23 -> mi <= 59 -> ss <= 59 ->
  parseIso (String y0 (String y1 (String y2 (String y3 ""))) ++ "-"
            ++ String m0 (String m1 "") ++ "-" ++ String d0 (String d1 "") ++ "T"
            ++ String h0 (String h1 "") ++ ":" ++ String i0 (String i1 "") ++ ":"
            ++ String s0 (String s1 ""))
  = IsoLocal (daysFromCivil y m d * msPerDay
              + (hh * msPerHour + mi * msPerMinute + ss * 1000)).
Proof.
  intros (Y0 & Y1 & Y2 & Y3 & Hy)%digitsFrom_four (M0 & M1 & Hm)%digitsFrom_two
    (D0 & D1 & Hd)%digitsFrom_two (H0 & H1 & Hh)%digitsFrom_two
    (I0 & I1 & Hi)%digitsFrom_two (S0 & S1 & Hs)%digitsFrom_two Rm Rd Rh Ri Rs.
  join_strings.
  unfold parseIso, dateOf, timeOf, field, charIs, dropChars. parse_step.
  rewrite Y0, Y1, Y2, Y3, M0, M1, D0, D1, H0, H1, I0, I1, S0, S1.
  rewrite Hy, Hm, Hd, Hh, Hi, Hs, !Ascii.eqb_refl. parse_step.
  repeat match goal with
  | |- context [(?a <=? ?b)] => rewrite (proj2 (Z.leb_le a b)) by lia
  end.
  parse_step. f_equal. lia.
Qed.

(** The wall-clock string of an instant of 1970..2099, read as a local
    reading: the reading the zone shows, to the second *)
Lemma toWall_parse h (t : Z) :
  0 <= Date.localTime h t / msPerDay < modernDays ->
  String.length (toWall h (Num t)) = 19%nat
  /\ parseIso (toWall h (Num t))
     = IsoLocal (Date.localTime h t - Date.localTime h t mod 1000).
Proof.
  intros Hday. unfold toWall, Date.getFullYear, Date.getMonth, Date.getDate,
    Date.getHours, Date.getMinutes, Date.getSeconds, Date.localField.
  set (w := Date.localTime h t) in *.
  destruct (modern_civil _ Hday) as (y & m & dd & Hciv & Hback & Rm & Rd & Ry).
  rewrite Hciv. cbn [add].
  replace (m - 1 + 1) with m by lia.
  assert (Hms : 0 <= w mod msPerDay < msPerDay) by (apply Z.mod_pos_bound; reflexivity).
  set (ms := w mod msPerDay) in *.
  assert (Rh : 0 <= ms / msPerHour < 100 /\ ms / msPerHour <= 23).
  { unfold msPerDay, msPerHour in *. Z.div_mod_to_equations. lia. }
  assert (Ri : 0 <= (ms / msPerMinute) mod 60 < 100 /\ (ms / msPerMinute) mod 60 <= 59).
  { unfold msPerMinute. Z.div_mod_to_equations. lia. }
  assert (Rs : 0 <= (ms / 1000) mod 60 < 100 /\ (ms / 1000) mod 60 <= 59).
  { Z.div_mod_to_equations. lia. }
  assert (Rdd : 0 <= dd < 100).
  { assert (daysInMonth y m <= 31) by (unfold daysInMonth; repeat destruct (_ =? _); try destruct (isLeap y); cbn; lia). lia. }
  destruct (four_digits y Ry) as (y0 & y1 & y2 & y3 & Sy & Dy).
  destruct (two_digits m ltac:(lia)) as (m0 & m1 & Sm & Dm).
  destruct (two_digits dd Rdd) as (d0 & d1 & Sd & Dd).
  destruct (two_digits _ (proj1 Rh)) as (h0 & h1 & Sh & Dh).
  destruct (two_digits _ (proj1 Ri)) as (i0 & i1 & Si & Di).
  destruct (two_digits _ (proj1 Rs)) as (s0 & s1 & Ss & Ds).
  rewrite Sy, Sm, Sd, Sh, Si, Ss.
  split; [reflexivity|].
  rewrite (parseIso_fields _ _ _ _ _ _ _ _ _ _ _ _ _ _ _ _ _ _ _ _
             Dy Dm Dd Dh Di Ds Rm Rd (proj2 Rh) (proj2 Ri) (proj2 Rs)).
  f_equal. rewrite Hback. subst ms.
  unfold msPerDay, msPerHour, msPerMinute in *. Z.div_mod_to_equations. lia.
Qed.

(** X19. For an instant whose local date falls in 1970..2099, [toWall]
    prints a string of 19 characters that reads, as a local reading, as
    what the zone shows at that instant, cut to the second; so an instant on
    a whole second whose reading the host takes for that very instant is
    printed and read back unchanged. *)
Theorem toWall_round_trip h (t : Z) :
  0 <= Date.localTime h t / msPerDay < modernDays ->
  String.length (toWall h (Num t)) = 19%nat
  /\ parseIso (toWall h (Num t))
     = IsoLocal (Date.localTime h t - Date.localTime h t mod 1000)
  /\ (Date.localTime h t mod 1000 = 0 ->
      Host.localToUtc h (Date.localTime h t) = t ->
      Z.abs t <= Date.maxTime ->
      Date.parse h (toWall h (Num t)) = Num t).
Proof.
  intros Hday. destruct (toWall_parse h t Hday) as [Hlen Hparse].
  split; [exact Hlen|]. split; [exact Hparse|].
  intros Hsec Hhost Hclip. unfold Date.parse, Date.TimeClip.
  rewrite Hparse, Hsec, Z.sub_0_r, Hhost.
  destruct (Z.leb_spec (Z.abs t) Date.maxTime); [reflexivity | lia].
Qed.

Lemma toWall_round_trip_witness :
  toWall Eastern.host (Num 1717250400000) = "2024-06-01T10:00:00"
  /\ Date.parse Eastern.host (toWall Eastern.host (Num 1717250400000))
     = Num 1717250400000.
Proof.
  split; [reflexivity|].
  destruct (toWall_round_trip Eastern.host 1717250400000) as (_ & _ & Hback).
  - vm_compute. split; discriminate || reflexivity.
  - apply Hback.
    + reflexivity.
    + reflexivity.
    + vm_compute. discriminate.
Defined.

Lemma parseIso_seconds (wall : string) (wl : Z) :
  String.length wall = 19%nat ->
  parseIso wall = IsoLocal wl ->
  wl mod 1000 = 0.
Proof.
  intros Hlen Hwall.
  do 19 (destruct wall as [|? wall]; [discriminate Hlen|]).
  destruct wall; [|discriminate Hlen]. clear Hlen.
  revert Hwall.
  unfold parseIso, dateOf, timeOf, field, charIs, dropChars. parse_step.
  repeat ((split_if || split_opt); parse_step; try (intros H; discriminate H)).
  all: intros [= <-]; unfold msPerDay, msPerHour, msPerMinute;
    Z.div_mod_to_equations; lia.
Qed.

(** X20. When the start typed in the form is a wall-clock string of 16
    or 19 characters that [new Date] takes for the instant [t], the zone
    shows that reading at [t] (it is not skipped), the reading the zone
    shows an hour later is taken for that later instant (it is not the
    second pass of a repeated hour) and falls in 1970..2099, then the body
    [handleAdd] posts has a start that reads as [t] and an end that reads as
    [t] plus 60 minutes. *)
Theorem createBody_hour_later h (f : Form.t) (wl t : Z) :
  String.length (Form.startsAt f) = 16%nat
  \/ String.length (Form.startsAt f) = 19%nat ->
  parseIso (withSeconds (Form.startsAt f)) = IsoLocal wl ->
  Host.localToUtc h wl = t ->
  Date.localTime h t = wl ->
  Host.localToUtc h (Date.localTime h (t + 60 * 60 * 1000)) = t + 60 * 60 * 1000 ->
  0 <= Date.localTime h (t + 60 * 60 * 1000) / msPerDay < modernDays ->
  Z.abs (Host.tzOffset h t) < 1440 ->
  Z.abs (Host.tzOffset h (t + 60 * 60 * 1000)) < 1440 ->
  exists startIso endIso,
    createBody h f
    = Obj [("start", Str startIso); ("end", Str endIso);
           ("name", Str (Form.name f)); ("email", orNull (Form.email f));
           ("phone", orNull (Form.phone f)); ("notes", orNull (Form.note f))]
    /\ Date.parse h startIso = Num t
    /\ Date.parse h endIso = Num (t + 60 * 60 * 1000).
Proof.
  intros Hlen Hiso Ht Hshown Hend Hday Hoff Hoff'.
  set (t' := t + 60 * 60 * 1000) in *.
  assert (Hlen19 := withSeconds_length _ Hlen).
  assert (Hbound : Z.abs t' <= 47482 * 86400000 + 1440 * 60000).
  { assert (Hw : 0 <= Date.localTime h t' < 47482 * 86400000).
    { revert Hday. unfold msPerDay, modernDays. generalize (Date.localTime h t').
      intros x Hx. Z.div_mod_to_equations. lia. }
    revert Hw Hoff'. unfold Date.localTime, msPerMinute.
    generalize (Host.tzOffset h t'). clearbody t'. intros o Hw Ho. lia. }
  assert (Hclip' : Z.abs t' <= Date.maxTime) by (unfold Date.maxTime; lia).
  assert (Hclip : Z.abs t <= Date.maxTime) by (unfold Date.maxTime; lia).
  destruct (label_reads_back h _ wl t Hlen19 Hiso Ht Hclip Hoff) as [Hstart Hback].
  destruct (toWall_parse h t' Hday) as [Hwlen Hwall].
  assert (Hsec : Date.localTime h t' mod 1000 = 0).
  { pose proof (parseIso_seconds _ _ Hlen19 Hiso) as H0.
    rewrite <- Hshown in H0. revert H0.
    unfold Date.localTime, msPerMinute. subst t'.
    generalize (Host.tzOffset h t) (Host.tzOffset h (t + 60 * 60 * 1000)).
    intros o o' H0. Z.div_mod_to_equations. lia. }
  rewrite Hsec, Z.sub_0_r in Hwall.
  destruct (label_reads_back h _ _ t' Hwlen Hwall Hend Hclip' Hoff') as [Hend1 Hback'].
  exists (localWallToZonedIso h (withSeconds (Form.startsAt f))),
    (localWallToZonedIso h (toWall h (Num t'))).
  split; [|split].
  - unfold createBody. cbn [Date.make]. rewrite Hstart. cbn [add].
    fold t'. unfold Date.TimeClip.
    destruct (Z.leb_spec (Z.abs t') Date.maxTime) as [_|]; [reflexivity | lia].
  - assert (Hws : withSeconds (withSeconds (Form.startsAt f))
                  = withSeconds (Form.startsAt f)).
    { unfold withSeconds at 1. now rewrite Hlen19. }
    unfold localWallToZonedIso. rewrite Hws. cbn [Date.make]. rewrite Hstart.
    cbn [Date.getTimezoneOffset]. apply Hback, Hshown.
  - assert (Hws : withSeconds (toWall h (Num t')) = toWall h (Num t')).
    { unfold withSeconds. now rewrite Hwlen. }
    unfold localWallToZonedIso. rewrite Hws. cbn [Date.make]. rewrite Hend1.
    cbn [Date.getTimezoneOffset]. apply Hback'. reflexivity.
Qed.

Lemma createBody_hour_later_witness :
  exists startIso endIso,
    createBody Eastern.host janeAtTen
    = Obj [("start", Str startIso); ("end", Str endIso);
           ("name", Str "Jane"); ("email", Str "jane@example.com");
           ("phone", Null); ("notes", Null)]
    /\ Date.parse Eastern.host endIso = Num (1717250400000 + 60 * 60 * 1000).
Proof.
  destruct (createBody_hour_later Eastern.host janeAtTen
              1717236000000 1717250400000)
    as (startIso & endIso & Hbody & _ & Hend).
  - left. reflexivity.
  - reflexivity.
  - reflexivity.
  - reflexivity.
  - reflexivity.
  - vm_compute. split; discriminate || reflexivity.
  - vm_compute. reflexivity.
  - vm_compute. reflexivity.
  - exists startIso, endIso. split; [exact Hbody | exact Hend].
Defined.

(** *** The cell of a readable timestamp *)

Lemma assignPart_fields (parts : list (string * string)) :
  forall acc : Parts,
  let p := List.fold_left assignPart parts acc in
  month p = lastPart same "month" parts (month acc)
  /\ day p = lastPart same "day" parts (day acc)
  /\ hour p = lastPart same "hour" parts (hour acc)
  /\ minute p = lastPart same "minute" parts (minute acc)
  /\ dayPeriod p = lastPart toLowerCase "dayPeriod" parts (dayPeriod acc).
Proof.
  induction parts as [|[ty v] parts IH]; intros acc; [cbn; auto|].
  cbn [List.fold_left lastPart]. specialize (IH (assignPart acc (ty, v))).
  cbn zeta in IH. unfold lastPart. cbn [fst snd].
  destruct IH as (Hm & Hd & Hh & Hi & Hp). rewrite Hm, Hd, Hh, Hi, Hp.
  unfold lastPart, assignPart, same.
  destruct (String.eqb_spec ty "month") as [->|_]; [cbn; auto|].
  destruct (String.eqb_spec ty "day") as [->|_]; [cbn; auto|].
  destruct (String.eqb_spec ty "hour") as [->|_]; [cbn; auto|].
  destruct (String.eqb_spec ty "minute") as [->|_]; [cbn; auto|].
  destruct (String.eqb_spec ty "dayPeriod") as [->|_]; cbn; auto.
Qed.

Lemma lastPart_notLiteral (f : string -> string) (ty : string)
  (parts : list (string * string)) :
  ty <> "literal" ->
  forall start,
  lastPart f ty (List.filter notLiteral parts) start = lastPart f ty parts start.
Proof.
  intros Hty. unfold lastPart.
  induction parts as [|[ty' v] parts IH]; intros start; [reflexivity|].
  cbn [List.filter List.fold_left]. unfold notLiteral at 1. cbn [fst snd].
  destruct (String.eqb_spec ty' "literal") as [->|_]; cbn [negb List.fold_left].
  - apply String.eqb_neq in Hty. rewrite String.eqb_sym, Hty. apply IH.
  - apply IH.
Qed.

(** X21. The cell of a timestamp [new Date] reads is made of five parts
    of what [Intl] returns and of nothing else: month "-" day " " hour ":"
    minute and the day period in lower case, each the last part of its
    type, whatever separators the host puts between them; a part the host
    leaves out is shown as "undefined". *)
Theorem formatDateAny_parts h (v : value) (t : Z)
  (parts : list (string * string)) :
  truthy v = true ->
  Date.make h v = Num t ->
  Host.formatToParts h t = Some parts ->
  formatDateAny h v = shownParts parts
  /\ shownParts parts = shownParts (List.filter notLiteral parts)
  /\ (List.filter notLiteral parts = [] ->
      formatDateAny h v = "undefined-undefined undefined:undefinedundefined").
Proof.
  intros Hv Ht Hparts.
  assert (Hshown : formatDateAny h v = shownParts parts).
  { unfold formatDateAny. rewrite Hv, Ht, Hparts. cbn [negb].
    destruct (assignPart_fields parts noParts) as (Hm & Hd & Hh & Hi & Hp).
    cbn zeta in *. rewrite Hm, Hd, Hh, Hi, Hp. reflexivity. }
  assert (Hlit : shownParts parts = shownParts (List.filter notLiteral parts)).
  { unfold shownParts. rewrite !lastPart_notLiteral by discriminate. reflexivity. }
  split; [exact Hshown|]. split; [exact Hlit|].
  intros Hnone. rewrite Hshown, Hlit, Hnone. reflexivity.
Qed.

Lemma formatDateAny_parts_witness :
  formatDateAny
    {| Host.tzOffset := Eastern.tzOffset; Host.localToUtc := Eastern.localToUtc;
       Host.legacyParse := fun _ => None;
       Host.formatToParts := fun _ => Some sampleParts |}
    (Str "2024-03-14T18:05:00Z")
  = "3-14 2:05pm".
Proof.
  destruct (formatDateAny_parts
              {| Host.tzOffset := Eastern.tzOffset;
                 Host.localToUtc := Eastern.localToUtc;
                 Host.legacyParse := fun _ => None;
                 Host.formatToParts := fun _ => Some sampleParts |}
              (Str "2024-03-14T18:05:00Z") 1710439500000 sampleParts)
    as (Hshown & _).
  - reflexivity.
  - reflexivity.
  - reflexivity.
  - rewrite Hshown. reflexivity.
Defined.
